(** * Trainer factories of [reagent.workflow_utils.transitional] and the
      [TrainingDataPage] record

    A shallow embedding of the two Python modules.  The factory functions are
    sequences of calls into torch and into ReAgent's model and trainer
    classes; they are embedded as programs of a small state-and-exception
    monad over a [world] that holds the objects built so far, the calls made
    so far (in order) and whether a CUDA device is present. *)

From Stdlib Require Import QArith.
From stdpp Require Import gmap strings list.

Open Scope Z_scope.

(** ** Python values and operations used by the two modules *)

Module Py.

(** Exceptions that can reach the caller of the embedded functions. *)
Inductive exn :=
| AssertionError (msg : string)
| RuntimeError (msg : string)
| AttributeError (msg : string).

Inductive outcome (A : Type) :=
| Returns (a : A)
| Raises (e : exn).
Arguments Returns {A} a.
Arguments Raises {A} e.

(** [len(l)] as a Python integer. *)
Definition len {A} (l : list A) : Z := Z.of_nat (length l).

(** Clamping of one slice bound against a sequence of length [n]:
    negative bounds count from the end, and both ends saturate. *)
Definition clamp (n i : Z) : Z :=
  if i <? 0 then Z.max 0 (i + n) else Z.min i n.

(** [l[start:stop]] with step 1; [None] is an omitted bound. *)
Definition slice {A} (start stop : option Z) (l : list A) : list A :=
  let n := len l in
  let lo := from_option (clamp n) 0 start in
  let hi := from_option (clamp n) n stop in
  take (Z.to_nat (hi - lo)) (drop (Z.to_nat lo) l).

(** [range(n)]: empty when [n <= 0]. *)
Definition range (n : Z) : list Z := Z.of_nat <$> seq 0 (Z.to_nat n).

(** [x or []] for an argument that is [None] or a list: an empty list is
    falsy, so it is replaced by the (equal) fresh empty list. *)
Definition or_empty {A} (x : option (list A)) : list A :=
  match x with
  | Some (a :: l) => a :: l
  | Some [] | None => []
  end.

(** Python floats are only passed through by the code, except for one
    comparison against zero; they are carried as rationals. *)
Definition float := Q.
Definition float_gt_zero (x : float) : bool := 0 <? Qnum x.

(** A fragment of Python's value universe, enough for the arguments a
    [TrainingDataPage] is built from. *)
#[warnings="-register-all"]
Inductive value :=
| VNone
| VBool (b : bool)
| VInt (n : Z)
| VFloat (x : float)
| VStr (s : string)
| VList (items : list value).

End Py.
Export Py.

(** ** The torch side: objects, calls, and the monad of the factories *)

Module Torch.

(** Object identity: the position of the object in the heap. *)
Definition ref := nat.
Bind Scope nat_scope with ref.

Inductive device := CPU | CUDA.

Record CEMPlannerArgs := {
  mem_net_list : list ref;
  cem_num_iterations : Z;
  cem_population_size : Z;
  ensemble_population_size : Z;
  num_elites : Z;
  plan_horizon_length : Z;
  planner_state_dim : Z;
  planner_action_dim : Z;
  discrete_action : bool;
  terminal_effective : bool;
  planner_gamma : float;
  planner_alpha : float;
  planner_epsilon : float;
  action_upper_bounds : option (list float);
  action_lower_bounds : option (list float)
}.

(** One constructor per model class of [reagent.models] that the factories
    instantiate, carrying the keyword arguments of the call.  The classes
    themselves are outside the two modules; a construction is recorded, its
    internals are not interpreted. *)
Inductive module_args :=
| QuantileDQN (state_dim action_dim num_atoms : Z) (sizes : list Z)
    (activations : list string) (dropout_ratio : float)
| CategoricalDQN (state_dim action_dim num_atoms : Z) (qmin qmax : float)
    (sizes : list Z) (activations : list string) (dropout_ratio : float)
    (use_gpu : bool)
| DuelingQNetwork (layers : list Z) (activations : list string)
| FullyConnectedDQN (state_dim action_dim : Z) (sizes : list Z)
    (activations : list string) (dropout_ratio : float)
| FullyConnectedParametricDQN (state_dim action_dim : Z) (sizes : list Z)
    (activations : list string)
| MemoryNetwork (state_dim action_dim num_hiddens num_hidden_layers
    num_gaussians : Z)
| CEMPlannerNetwork (args : CEMPlannerArgs).

Inductive object :=
| Module (args : module_args) (dev : device)
| DataParallel (wrapped : ref).

(** The calls a factory makes on the framework, as they appear in the log. *)
Inductive call :=
| Construct (r : ref) (args : module_args)
| ToCuda (r : ref)
| TargetNetwork (source copy : ref)
| Distribute (source wrapper : ref).

Record world := {
  cuda_is_available : bool;
  heap : list object;
  log : list call
}.

Definition py (A : Type) : Type := world -> world * outcome A.

Definition ret {A} (a : A) : py A := fun w => (w, Returns a).

Definition bind {A B} (m : py A) (k : A -> py B) : py B :=
  fun w =>
    match m w with
    | (w', Returns a) => k a w'
    | (w', Raises e) => (w', Raises e)
    end.

Definition raise {A} (e : exn) : py A := fun w => (w, Raises e).

(** [assert cond, msg] *)
Definition assert (cond : bool) (msg : string) : py unit :=
  if cond then ret tt else raise (AssertionError msg).

(** Allocation of a new object, with the call that produced it. *)
Definition alloc (o : object) (c : ref -> call) : py ref :=
  fun w =>
    let r := length (heap w) in
    ({| cuda_is_available := cuda_is_available w;
        heap := heap w ++ [o];
        log := log w ++ [c r] |}, Returns r).

(** Calling a model class: a fresh module, on the CPU. *)
Definition construct (args : module_args) : py ref :=
  alloc (Module args CPU) (fun r => Construct r args).

(** [torch.cuda.is_available()] *)
Definition torch_cuda_is_available : py bool :=
  fun w => (w, Returns (cuda_is_available w)).

Definition on_cuda (o : object) : object :=
  match o with
  | Module args _ => Module args CUDA
  | DataParallel wrapped => DataParallel wrapped
  end.

(** [m.cuda()] of [torch.nn.Module]: moves the module in place and returns
    the module itself; without a CUDA device the call raises.  (The
    factories never call it on a wrapper.) *)
Definition cuda (r : ref) : py ref :=
  fun w =>
    if cuda_is_available w then
      ({| cuda_is_available := cuda_is_available w;
          heap := alter on_cuda r (heap w);
          log := log w ++ [ToCuda r] |}, Returns r)
    else
      ({| cuda_is_available := cuda_is_available w;
          heap := heap w;
          log := log w ++ [ToCuda r] |},
       Raises (RuntimeError "no CUDA device is available")).

(** Modelled from the spec: [ModelBase.get_target_network] of
    [reagent.models.base], which is not among the sources.  The target is
    "a frozen/copy network": a new object, copied from the source as it is
    at the time of the call, and so on the source's device. *)
Definition get_target_network (r : ref) : py ref :=
  fun w =>
    match heap w !! r with
    | Some (Module args dev) =>
        alloc (Module args dev) (fun r' => TargetNetwork r r') w
    | _ => raise (AttributeError "get_target_network") w
    end.

(** Modelled from the spec:
    [ModelBase.get_distributed_data_parallel_model] of
    [reagent.models.base], which is not among the sources: "wrap the
    network in a multi-device parallel wrapper", a new object that refers
    to the wrapped one. *)
Definition get_distributed_data_parallel_model (r : ref) : py ref :=
  alloc (DataParallel r) (fun r' => Distribute r r').

End Torch.
Export Torch.

Declare Scope py_scope.
Delimit Scope py_scope with py.
Notation "x <- m ;; k" := (bind m (fun x => k))
  (at level 100, m at next level, right associativity) : py_scope.
Open Scope py_scope.

(** [[f(x) for x in xs]]: the elements are evaluated from left to right. *)
Fixpoint comprehension {A B} (f : A -> py B) (xs : list A) : py (list B) :=
  match xs with
  | [] => ret []
  | x :: xs' =>
      y <- f x ;;
      ys <- comprehension f xs' ;;
      ret (y :: ys)
  end.

(** ** Configuration objects of [reagent.parameters]

    Only the attributes the factories read are kept. *)

Module Config.

Record RLParameters := {
  gamma : float
}.

Record RainbowDQNParameters := {
  double_q_learning : bool;
  dueling_architecture : bool;
  categorical : bool;
  quantile : bool;
  num_atoms : Z;
  qmin : float;
  qmax : float
}.

Record TrainingParameters := {
  minibatch_size : Z;
  learning_rate : float;
  optimizer : string;
  layers : list Z;
  activations : list string;
  l2_decay : float;
  dropout_ratio : float
}.

Record EvaluationParameters := {
  calc_cpe_in_training : bool
}.

Record DiscreteActionModelParameters := {
  actions : list string;
  rl : RLParameters;
  training : TrainingParameters;
  rainbow : RainbowDQNParameters;
  evaluation : EvaluationParameters
}.

Record ContinuousActionModelParameters := {
  c_rl : RLParameters;
  c_training : TrainingParameters;
  c_rainbow : RainbowDQNParameters
}.

Record OptimizerParameters := {
  o_optimizer : string;
  o_learning_rate : float;
  o_l2_decay : float
}.

Record ParametricDQNTrainerParameters := {
  p_rl : RLParameters;
  p_double_q_learning : bool;
  p_minibatch_size : Z;
  p_optimizer : OptimizerParameters
}.

Record MDNRNNParameters := {
  hidden_size : Z;
  num_hidden_layers : Z;
  num_gaussians : Z;
  not_terminal_loss_weight : float
}.

Record CEMParameters := {
  cem_rl : RLParameters;
  num_world_models : Z;
  mdnrnn : MDNRNNParameters;
  p_cem_num_iterations : Z;
  p_cem_population_size : Z;
  p_ensemble_population_size : Z;
  p_num_elites : Z;
  p_plan_horizon_length : Z;
  alpha : float;
  epsilon : float
}.

(** [X.from_discrete_action_model_parameters(model)] for the three trainer
    parameter classes: the translation is done by the parameter classes and
    is kept symbolic. *)
Inductive QRDQNTrainerParameters :=
| QRDQN_from_discrete_action_model_parameters
    (model : DiscreteActionModelParameters).
Inductive C51TrainerParameters :=
| C51_from_discrete_action_model_parameters
    (model : DiscreteActionModelParameters).
Inductive DQNTrainerParameters :=
| DQN_from_discrete_action_model_parameters
    (model : DiscreteActionModelParameters).

End Config.
Export Config.

(** ** The gym environment, as far as [get_cem_trainer] reads it *)

Module Gym.

Inductive EnvType := DISCRETE_ACTION | CONTINUOUS_ACTION.

Definition EnvType_eqb (a b : EnvType) : bool :=
  match a, b with
  | DISCRETE_ACTION, DISCRETE_ACTION => true
  | CONTINUOUS_ACTION, CONTINUOUS_ACTION => true
  | _, _ => false
  end.

Record Box := {
  high : list float;
  low : list float
}.

Record OpenAIGymEnvironment := {
  action_type : EnvType;
  action_space : Box;
  state_dim : Z;
  action_dim : Z
}.

End Gym.
Export Gym.

(** ** Trainer objects

    The trainer classes are outside the two modules; a trainer is the record
    of the arguments its class was called with, positional arguments first. *)

Module Trainers.

Inductive DiscreteTrainer :=
| QRDQNTrainer (q_network q_network_target : ref)
    (parameters : QRDQNTrainerParameters) (use_gpu : bool)
    (metrics_to_score : list string)
    (reward_network q_network_cpe q_network_cpe_target : option ref)
| C51Trainer (q_network q_network_target : ref)
    (parameters : C51TrainerParameters) (use_gpu : bool)
    (metrics_to_score : list string)
| DQNTrainer (q_network q_network_target : ref)
    (reward_network : option ref)
    (parameters : DQNTrainerParameters) (use_gpu : bool)
    (q_network_cpe q_network_cpe_target : option ref)
    (metrics_to_score : list string).

Record ParametricDQNTrainer := {
  pt_q_network : ref;
  pt_q_network_target : ref;
  pt_reward_network : ref;
  pt_use_gpu : bool;
  pt_parameters : ParametricDQNTrainerParameters
}.

(** Modelled from the spec: [MDNRNNTrainer] of
    [reagent.training.world_model.mdnrnn_trainer], which is not among the
    sources.  Each trainer is "owning its own network instance": the
    attribute [mdnrnn] that [get_cem_trainer] reads back is the network the
    trainer was built with. *)
Record MDNRNNTrainer := {
  mdnrnn_network : ref;
  params : MDNRNNParameters
}.
Definition MDNRNNTrainer_mdnrnn (t : MDNRNNTrainer) : ref :=
  mdnrnn_network t.

Record CEMTrainer := {
  cem_planner_network : ref;
  world_model_trainers : list MDNRNNTrainer;
  cem_parameters : CEMParameters;
  cem_use_gpu : bool
}.

End Trainers.
Export Trainers.

(** ** [reagent/workflow_utils/transitional.py] *)

Section Transitional.

(** [get_num_output_features] of [reagent.preprocessing.normalization] is
    imported, not defined, by the module: it is a parameter here, together
    with the type of the values of the normalization dictionaries. *)
Context {NormalizationParameters : Type}.
Variable get_num_output_features : gmap Z NormalizationParameters -> Z.

(** [a and b()] where [a] is a boolean and [b()] is only evaluated when [a]
    holds. *)
Definition and_then (a : bool) (b : py bool) : py bool :=
  if a then b else ret false.

(** [x.get_distributed_data_parallel_model() if x else None]; a module
    object is truthy. *)
Definition distribute_if_present (x : option ref) : py (option ref) :=
  match x with
  | Some r => r' <- get_distributed_data_parallel_model r ;; ret (Some r')
  | None => ret None
  end.

Definition create_dqn_trainer_from_params
    (model : DiscreteActionModelParameters)
    (normalization_parameters : gmap Z NormalizationParameters)
    (use_gpu use_all_avail_gpus : bool)
    (metrics_to_score : option (list string)) : py DiscreteTrainer :=
  let metrics_to_score := or_empty metrics_to_score in
  q_network <-
    (if quantile (rainbow model) then
       construct (QuantileDQN
         (get_num_output_features normalization_parameters)
         (len (actions model))
         (num_atoms (rainbow model))
         (slice (Some 1) (Some (-1)) (layers (training model)))
         (slice None (Some (-1)) (activations (training model)))
         (dropout_ratio (training model)))
     else if categorical (rainbow model) then
       construct (CategoricalDQN
         (get_num_output_features normalization_parameters)
         (len (actions model))
         (num_atoms (rainbow model))
         (qmin (rainbow model))
         (qmax (rainbow model))
         (slice (Some 1) (Some (-1)) (layers (training model)))
         (slice None (Some (-1)) (activations (training model)))
         (dropout_ratio (training model))
         use_gpu)
     else if dueling_architecture (rainbow model) then
       construct (DuelingQNetwork
         ([get_num_output_features normalization_parameters]
            ++ slice (Some 1) (Some (-1)) (layers (training model))
            ++ [len (actions model)])
         (activations (training model)))
     else
       construct (FullyConnectedDQN
         (get_num_output_features normalization_parameters)
         (len (actions model))
         (slice (Some 1) (Some (-1)) (layers (training model)))
         (slice None (Some (-1)) (activations (training model)))
         (dropout_ratio (training model)))) ;;
  place <- and_then use_gpu torch_cuda_is_available ;;
  q_network <- (if place : bool then cuda q_network else ret q_network) ;;
  q_network_target <- get_target_network q_network ;;
  cpe <-
    (if calc_cpe_in_training (evaluation model) then
       (* Metrics + reward *)
       let num_output_nodes :=
         (len metrics_to_score + 1) * len (actions model) in
       reward_network <- construct (FullyConnectedDQN
         (get_num_output_features normalization_parameters)
         num_output_nodes
         (slice (Some 1) (Some (-1)) (layers (training model)))
         (slice None (Some (-1)) (activations (training model)))
         (dropout_ratio (training model))) ;;
       q_network_cpe <- construct (FullyConnectedDQN
         (get_num_output_features normalization_parameters)
         num_output_nodes
         (slice (Some 1) (Some (-1)) (layers (training model)))
         (slice None (Some (-1)) (activations (training model)))
         (dropout_ratio (training model))) ;;
       place <- and_then use_gpu torch_cuda_is_available ;;
       _ <- (if place : bool then
               _ <- cuda reward_network ;;
               _ <- cuda q_network_cpe ;;
               ret tt
             else ret tt) ;;
       q_network_cpe_target <- get_target_network q_network_cpe ;;
       ret (Some reward_network, Some q_network_cpe,
            Some q_network_cpe_target)
     else ret (None, None, None)) ;;
  let '(reward_network, q_network_cpe, q_network_cpe_target) := cpe in
  nets <-
    (if use_all_avail_gpus
        && negb (categorical (rainbow model))
        && negb (quantile (rainbow model)) then
       q_network <- get_distributed_data_parallel_model q_network ;;
       reward_network <- distribute_if_present reward_network ;;
       q_network_cpe <- distribute_if_present q_network_cpe ;;
       ret (q_network, reward_network, q_network_cpe)
     else ret (q_network, reward_network, q_network_cpe)) ;;
  let '(q_network, reward_network, q_network_cpe) := nets in
  if quantile (rainbow model) then
    _ <- assert (negb use_all_avail_gpus)
           "use_all_avail_gpus not implemented for distributional RL" ;;
    let parameters := QRDQN_from_discrete_action_model_parameters model in
    ret (QRDQNTrainer q_network q_network_target parameters use_gpu
           metrics_to_score reward_network q_network_cpe
           q_network_cpe_target)
  else if categorical (rainbow model) then
    _ <- assert (negb use_all_avail_gpus)
           "use_all_avail_gpus not implemented for distributional RL" ;;
    ret (C51Trainer q_network q_network_target
           (C51_from_discrete_action_model_parameters model) use_gpu
           metrics_to_score)
  else
    let parameters := DQN_from_discrete_action_model_parameters model in
    ret (DQNTrainer q_network q_network_target reward_network parameters
           use_gpu q_network_cpe q_network_cpe_target metrics_to_score).

Definition create_parametric_dqn_trainer_from_params
    (model : ContinuousActionModelParameters)
    (state_normalization_parameters
       action_normalization_parameters : gmap Z NormalizationParameters)
    (use_gpu use_all_avail_gpus : bool) : py ParametricDQNTrainer :=
  q_network <- construct (FullyConnectedParametricDQN
    (get_num_output_features state_normalization_parameters)
    (get_num_output_features action_normalization_parameters)
    (slice (Some 1) (Some (-1)) (layers (c_training model)))
    (slice None (Some (-1)) (activations (c_training model)))) ;;
  reward_network <- construct (FullyConnectedParametricDQN
    (get_num_output_features state_normalization_parameters)
    (get_num_output_features action_normalization_parameters)
    (slice (Some 1) (Some (-1)) (layers (c_training model)))
    (slice None (Some (-1)) (activations (c_training model)))) ;;
  q_network_target <- get_target_network q_network ;;
  nets <-
    (if use_gpu then
       q_network <- cuda q_network ;;
       q_network_target <- cuda q_network_target ;;
       reward_network <- cuda reward_network ;;
       ret (q_network, q_network_target, reward_network)
     else ret (q_network, q_network_target, reward_network)) ;;
  let '(q_network, q_network_target, reward_network) := nets in
  nets <-
    (if use_all_avail_gpus then
       q_network <- get_distributed_data_parallel_model q_network ;;
       q_network_target <-
         get_distributed_data_parallel_model q_network_target ;;
       reward_network <-
         get_distributed_data_parallel_model reward_network ;;
       ret (q_network, q_network_target, reward_network)
     else ret (q_network, q_network_target, reward_network)) ;;
  let '(q_network, q_network_target, reward_network) := nets in
  let trainer_parameters :=
    {| p_rl := c_rl model;
       p_double_q_learning := double_q_learning (c_rainbow model);
       p_minibatch_size := minibatch_size (c_training model);
       p_optimizer :=
         {| o_optimizer := optimizer (c_training model);
            o_learning_rate := learning_rate (c_training model);
            o_l2_decay := l2_decay (c_training model) |} |} in
  ret {| pt_q_network := q_network;
         pt_q_network_target := q_network_target;
         pt_reward_network := reward_network;
         pt_use_gpu := use_gpu;
         pt_parameters := trainer_parameters |}.

Definition create_world_model_trainer
    (env : OpenAIGymEnvironment) (mdnrnn_params : MDNRNNParameters)
    (use_gpu : bool) : py MDNRNNTrainer :=
  mdnrnn_net <- construct (MemoryNetwork
    (state_dim env)
    (action_dim env)
    (hidden_size mdnrnn_params)
    (num_hidden_layers mdnrnn_params)
    (num_gaussians mdnrnn_params)) ;;
  mdnrnn_net <- (if use_gpu then cuda mdnrnn_net else ret mdnrnn_net) ;;
  let mdnrnn_trainer :=
    {| mdnrnn_network := mdnrnn_net; params := mdnrnn_params |} in
  ret mdnrnn_trainer.

Definition get_cem_trainer
    (env : OpenAIGymEnvironment) (params : CEMParameters)
    (use_gpu : bool) : py CEMTrainer :=
  let num_world_models := num_world_models params in
  world_model_trainers <-
    comprehension
      (fun _ => create_world_model_trainer env (mdnrnn params) use_gpu)
      (range num_world_models) ;;
  let world_model_nets := MDNRNNTrainer_mdnrnn <$> world_model_trainers in
  let discrete_action := EnvType_eqb (action_type env) DISCRETE_ACTION in
  let terminal_effective :=
    float_gt_zero (not_terminal_loss_weight (mdnrnn params)) in
  let '(action_upper_bounds, action_lower_bounds) :=
    if negb discrete_action then
      (Some (high (action_space env)), Some (low (action_space env)))
    else (None, None) in
  cem_planner_network <- construct (CEMPlannerNetwork
    {| mem_net_list := world_model_nets;
       cem_num_iterations := p_cem_num_iterations params;
       cem_population_size := p_cem_population_size params;
       ensemble_population_size := p_ensemble_population_size params;
       num_elites := p_num_elites params;
       plan_horizon_length := p_plan_horizon_length params;
       planner_state_dim := state_dim env;
       planner_action_dim := action_dim env;
       discrete_action := discrete_action;
       terminal_effective := terminal_effective;
       planner_gamma := gamma (cem_rl params);
       planner_alpha := alpha params;
       planner_epsilon := epsilon params;
       action_upper_bounds := action_upper_bounds;
       action_lower_bounds := action_lower_bounds |}) ;;
  let cem_trainer :=
    {| cem_planner_network := cem_planner_network;
       world_model_trainers := world_model_trainers;
       cem_parameters := params;
       cem_use_gpu := use_gpu |} in
  ret cem_trainer.

End Transitional.

(** ** [ml/rl/training/training_data_page.py] *)

Module TrainingDataPage.

(** [__slots__]: the only attribute names an instance accepts. *)
Definition slots : list string :=
  ["states"; "actions"; "rewards"; "next_states";
   "next_actions"; "possible_next_actions"; "reward_timelines"; "ds";
   "not_terminals"].

(** An instance: the slots assigned so far. *)
Abbreviation instance := (gmap string value).

(** [self.name = v] on a class with [__slots__], for a slot name or an
    ordinary name.  (Names that begin with two underscores are resolved by
    Python on the class and on [object] first; they are not covered.) *)
Definition setattr (self : instance) (name : string) (v : value)
    : outcome instance :=
  if bool_decide (name ∈ slots) then Returns (<[name := v]> self)
  else Raises (AttributeError name).

(** [self.name], for a slot name or an ordinary name; an unassigned slot
    raises.  (Names that begin with two underscores, such as [__class__],
    [__slots__] or [__init__], are found by Python on the class and on
    [object]; they are not covered.) *)
Definition getattr (self : instance) (name : string) : outcome value :=
  match self !! name with
  | Some v => Returns v
  | None => Raises (AttributeError name)
  end.

Definition and_next {A B} (o : outcome A) (k : A -> outcome B)
    : outcome B :=
  match o with
  | Returns a => k a
  | Raises e => Raises e
  end.

Definition __init__ (self : instance)
    (states actions rewards next_states next_actions
       possible_next_actions reward_timelines ds not_terminals : value)
    : outcome instance :=
  and_next (setattr self "states" states) (fun self =>
  and_next (setattr self "actions" actions) (fun self =>
  and_next (setattr self "rewards" rewards) (fun self =>
  and_next (setattr self "next_states" next_states) (fun self =>
  and_next (setattr self "next_actions" next_actions) (fun self =>
  and_next (setattr self "possible_next_actions" possible_next_actions)
    (fun self =>
  and_next (setattr self "reward_timelines" reward_timelines) (fun self =>
  and_next (setattr self "ds" ds) (fun self =>
  setattr self "not_terminals" not_terminals)))))))).

(** The call [TrainingDataPage(...)]: a fresh instance is initialised;
    [not_terminals] may be omitted and then takes its default, [None]. *)
Definition new
    (states actions rewards next_states next_actions
       possible_next_actions reward_timelines ds : value)
    (not_terminals : option value) : outcome instance :=
  __init__ ∅ states actions rewards next_states next_actions
    possible_next_actions reward_timelines ds
    (default VNone not_terminals).

End TrainingDataPage.

(** ** Concrete inputs used by the examples below *)

Module Examples.

(** One output feature per normalized input feature. *)
Definition one_feature_each (np : gmap Z unit) : Z := Z.of_nat (size np).

Definition two_features : gmap Z unit := {[ 0 := tt; 1 := tt ]}.

Definition fresh (available : bool) : world :=
  {| cuda_is_available := available; heap := []; log := [] |}.

Definition some_rl : RLParameters := {| gamma := (99 # 100)%Q |}.

Definition some_training : TrainingParameters :=
  {| minibatch_size := 1024;
     learning_rate := (1 # 100)%Q;
     optimizer := "ADAM";
     layers := [-1; 128; 64; -1];
     activations := ["relu"; "relu"; "linear"];
     l2_decay := 0%Q;
     dropout_ratio := 0%Q |}.

Definition some_rainbow (dueling categorical quantile : bool)
    : RainbowDQNParameters :=
  {| double_q_learning := true;
     dueling_architecture := dueling;
     categorical := categorical;
     quantile := quantile;
     num_atoms := 51;
     qmin := (-100)%Q;
     qmax := 200%Q |}.

Definition discrete_model (dueling categorical quantile cpe : bool)
    : DiscreteActionModelParameters :=
  {| actions := ["left"; "right"; "stay"];
     rl := some_rl;
     training := some_training;
     rainbow := some_rainbow dueling categorical quantile;
     evaluation := {| calc_cpe_in_training := cpe |} |}.

Definition continuous_model : ContinuousActionModelParameters :=
  {| c_rl := some_rl;
     c_training := some_training;
     c_rainbow := some_rainbow false false false |}.

Definition some_env : OpenAIGymEnvironment :=
  {| action_type := CONTINUOUS_ACTION;
     action_space := {| high := [1%Q]; low := [(-1)%Q] |};
     state_dim := 4;
     action_dim := 1 |}.

Definition cem_params (n : Z) : CEMParameters :=
  {| cem_rl := some_rl;
     num_world_models := n;
     mdnrnn := {| hidden_size := 50; num_hidden_layers := 2;
                  num_gaussians := 5; not_terminal_loss_weight := 1%Q |};
     p_cem_num_iterations := 10;
     p_cem_population_size := 50;
     p_ensemble_population_size := 1;
     p_num_elites := 15;
     p_plan_horizon_length := 10;
     alpha := (1 # 4)%Q;
     epsilon := (1 # 1000)%Q |}.

End Examples.

(** ** Observations on a run

    What the properties below speak about: the outcome of running a factory
    from a world, the world it leaves, and the calls it made, in order. *)

Module Observations.

Definition world_after {A} (m : py A) (w : world) : world := (m w).1.

Definition outcome_of {A} (m : py A) (w : world) : outcome A := (m w).2.

(** The calls made by the run itself: the log beyond what it started
    with. *)
Definition calls_of {A} (m : py A) (w : world) : list call :=
  drop (length (log w)) (log (world_after m w)).

(** The model objects constructed, with their identities. *)
Definition constructions (cs : list call) : list (ref * module_args) :=
  omap (fun c => match c with
                 | Construct r args => Some (r, args)
                 | _ => None
                 end) cs.

(** The objects on which GPU placement was attempted. *)
Definition placements (cs : list call) : list ref :=
  omap (fun c => match c with ToCuda r => Some r | _ => None end) cs.

(** The objects wrapped for multi-device execution. *)
Definition wrappings (cs : list call) : list ref :=
  omap (fun c => match c with Distribute r _ => Some r | _ => None end) cs.

(** [a] occurs in [cs] before an occurrence of [b]. *)
Definition precedes (a b : call) (cs : list call) : Prop :=
  exists before after, cs = before ++ b :: after /\ a ∈ before.

(** The module behind a reference, looking through one multi-device
    wrapper. *)
Definition module_at (h : list object) (r : ref)
    : option (module_args * device) :=
  match h !! r with
  | Some (Module args dev) => Some (args, dev)
  | Some (DataParallel r') =>
      match h !! r' with
      | Some (Module args dev) => Some (args, dev)
      | _ => None
      end
  | None => None
  end.

Definition is_data_parallel (h : list object) (r : ref) : bool :=
  match h !! r with
  | Some (DataParallel _) => true
  | _ => false
  end.

Definition is_planner (args : module_args) : bool :=
  match args with
  | CEMPlannerNetwork _ => true
  | _ => false
  end.

Definition metrics_received (t : DiscreteTrainer) : list string :=
  match t with
  | QRDQNTrainer _ _ _ _ metrics _ _ _ => metrics
  | C51Trainer _ _ _ _ metrics => metrics
  | DQNTrainer _ _ _ _ _ _ _ metrics => metrics
  end.

(** The four network classes of the discrete-action factory. *)
Inductive architecture := Quantile | Categorical | Dueling | FullyConnected.

Definition architecture_of (args : module_args) : option architecture :=
  match args with
  | QuantileDQN _ _ _ _ _ _ => Some Quantile
  | CategoricalDQN _ _ _ _ _ _ _ _ _ => Some Categorical
  | DuelingQNetwork _ _ => Some Dueling
  | FullyConnectedDQN _ _ _ _ _ => Some FullyConnected
  | _ => None
  end.

(** The documented decision procedure, in its own words: quantile if the
    quantile flag is set; else categorical if the categorical flag is set;
    else dueling if the dueling-architecture flag is set; else the plain
    fully-connected default.  It is compared below with what the factory
    builds. *)
Definition documented_first_match (r : RainbowDQNParameters)
    : architecture :=
  if quantile r then Quantile
  else if categorical r then Categorical
  else if dueling_architecture r then Dueling
  else FullyConnected.

End Observations.
Export Observations.

(** ** Further observations: what a trainer was handed, what a run left *)

Module TrainerObservations.

(** The [use_gpu] argument a discrete trainer was called with. *)
Definition use_gpu_received (t : DiscreteTrainer) : bool :=
  match t with
  | QRDQNTrainer _ _ _ use_gpu _ _ _ _ => use_gpu
  | C51Trainer _ _ _ use_gpu _ => use_gpu
  | DQNTrainer _ _ _ _ use_gpu _ _ _ => use_gpu
  end.

(** The networks a discrete trainer was called with, [None]s left out: the
    Q-network, its target, then the reward network, the CPE network and the
    CPE target. *)
Definition networks_received (t : DiscreteTrainer) : list ref :=
  match t with
  | QRDQNTrainer q target _ _ _ reward cpe cpe_target =>
      q :: target :: omap id [reward; cpe; cpe_target]
  | C51Trainer q target _ _ _ => [q; target]
  | DQNTrainer q target reward _ _ cpe cpe_target _ =>
      q :: target :: omap id [reward; cpe; cpe_target]
  end.

(** The objects a run added to the heap. *)
Definition created (w w' : world) : list object :=
  drop (length (heap w)) (heap w').

(** A module on device [d]; a wrapper has no device of its own. *)
Definition on_device (d : device) (o : object) : Prop :=
  match o with
  | Module _ dev => dev = d
  | DataParallel _ => True
  end.

(** [w'] is [w] with more objects and more calls: nothing that was in [w]
    has changed. *)
Definition extends (w w' : world) : Prop :=
  cuda_is_available w' = cuda_is_available w
  /\ heap w `prefix_of` heap w'
  /\ log w `prefix_of` log w'.

(** Names that begin with two underscores.  Every name that Python finds on
    the class or on [object] rather than in a slot ([__class__], [__slots__],
    [__init__], [__doc__], [__module__], ...) has this form. *)
Definition is_reserved_name (name : string) : bool :=
  String.prefix "__" name.

End TrainerObservations.
Export TrainerObservations.

(** ** Further concrete inputs *)

Module FurtherExamples.
Import Examples.

(** A configuration with no hidden layer: input and output entry only. *)
Definition short_training : TrainingParameters :=
  {| minibatch_size := 32;
     learning_rate := (1 # 100)%Q;
     optimizer := "SGD";
     layers := [-1; -1];
     activations := ["linear"];
     l2_decay := 0%Q;
     dropout_ratio := 0%Q |}.

Definition short_model (dueling : bool) : DiscreteActionModelParameters :=
  {| actions := ["left"; "right"; "stay"];
     rl := some_rl;
     training := short_training;
     rainbow := some_rainbow dueling false false;
     evaluation := {| calc_cpe_in_training := true |} |}.


End FurtherExamples.

(** * Properties *)

(** ** Slices *)

Section SliceFacts.
Context {A : Type}.
Implicit Types l m : list A.

(** [l[1:-1]] drops the first and the last element. *)
Lemma slice_middle l : slice (Some 1) (Some (-1)) l = removelast (tail l).
Proof.
  rewrite removelast_firstn_len. unfold slice, len, clamp. cbn.
  destruct l as [|x l]; [reflexivity|]. cbn [tail length].
  replace (Z.to_nat (1 `min` Z.of_nat (S (length l)))) with 1%nat by lia.
  cbn [drop]. rewrite drop_0. f_equal. lia.
Qed.

(** [l[:-1]] drops the last element. *)
Lemma slice_but_last l : slice None (Some (-1)) l = removelast l.
Proof.
  rewrite removelast_firstn_len. unfold slice, len, clamp. cbn.
  rewrite drop_0. f_equal. destruct l; cbn; lia.
Qed.

Lemma slice_middle_app x m y :
  slice (Some 1) (Some (-1)) (x :: m ++ [y]) = m.
Proof. rewrite slice_middle. cbn [tail]. apply removelast_last. Qed.

Lemma slice_but_last_app m y : slice None (Some (-1)) (m ++ [y]) = m.
Proof. rewrite slice_but_last. apply removelast_last. Qed.

Lemma len_or_empty_Some l : len (or_empty (Some l)) = len l.
Proof. by destruct l. Qed.
End SliceFacts.

(** ** Fresh references

    A run only appends to the heap it starts from, so every reference it
    creates has the form [length h + i] and is looked up past [h]. *)

Section FreshFacts.
Context {A : Type}.
Implicit Types h t : list A.

Lemma lookup_fresh h t (i : nat) : (h ++ t) !! (length h + i)%nat = t !! i.
Proof. rewrite lookup_app_r by lia. f_equal. lia. Qed.

Lemma lookup_fresh_0 h t : (h ++ t) !! length h = t !! 0%nat.
Proof. rewrite <- (lookup_fresh h t 0). f_equal. lia. Qed.

Lemma alter_fresh_0 (g : A -> A) h t :
  alter g (length h) (h ++ t) = h ++ alter g 0%nat t.
Proof. rewrite <- (alter_app_r g h t 0). f_equal. lia. Qed.
End FreshFacts.

(* The Python-level list operations stay folded during simplification; the
   lemmas above say what they compute. *)
#[global] Arguments slice : simpl never.
#[global] Arguments len : simpl never.
#[global] Arguments or_empty : simpl never.

Ltac heap_norm :=
  repeat first
    [ progress cbn
    | rewrite <- app_assoc
    | rewrite length_app
    | rewrite <- Nat.add_assoc
    | rewrite lookup_fresh
    | rewrite lookup_fresh_0
    | rewrite alter_app_r
    | rewrite alter_fresh_0
    | rewrite drop_app_length ].

Ltac unfold_run :=
  unfold outcome_of, calls_of, world_after, module_at,
    create_dqn_trainer_from_params, create_parametric_dqn_trainer_from_params,
    create_world_model_trainer,
    and_then, distribute_if_present, assert, torch_cuda_is_available,
    get_distributed_data_parallel_model, get_target_network, cuda, construct,
    alloc, raise, bind, ret.

Ltac split_model model :=
  destruct model as [acts rl tr [dq du ca qu na qmi qma] [cpe]].

(** ** The discrete-action factory *)

Section DiscreteFactory.
Context {NormalizationParameters : Type}.
Variable get_num_output_features : gmap Z NormalizationParameters -> Z.

Implicit Types (model : DiscreteActionModelParameters)
  (np : gmap Z NormalizationParameters) (w : world)
  (metrics : option (list string)).

#[local] Abbreviation create :=
  (create_dqn_trainer_from_params get_num_output_features).

(** The run of the discrete factory, call by call. *)
Lemma dqn_run model np use_gpu use_all metrics w :
  let n := length (heap w) in
  let inputs := get_num_output_features np in
  let outputs := len (actions model) in
  let middle := slice (Some 1) (Some (-1)) (layers (training model)) in
  let truncated := slice None (Some (-1)) (activations (training model)) in
  let dropout := dropout_ratio (training model) in
  let qu := quantile (rainbow model) in
  let ca := categorical (rainbow model) in
  let cpe := calc_cpe_in_training (evaluation model) in
  let primary :=
    if qu then
      QuantileDQN inputs outputs (num_atoms (rainbow model)) middle
        truncated dropout
    else if ca then
      CategoricalDQN inputs outputs (num_atoms (rainbow model))
        (qmin (rainbow model)) (qmax (rainbow model)) middle truncated
        dropout use_gpu
    else if dueling_architecture (rainbow model) then
      DuelingQNetwork ([inputs] ++ middle ++ [outputs])
        (activations (training model))
    else FullyConnectedDQN inputs outputs middle truncated dropout in
  let aux :=
    FullyConnectedDQN inputs ((len (or_empty metrics) + 1) * outputs)
      middle truncated dropout in
  let place := use_gpu && cuda_is_available w in
  let dev := if place then CUDA else CPU in
  let wrap := use_all && negb ca && negb qu in
  let when_cpe (r : ref) := if cpe then Some r else None in
  let wrapped (plain distributed : nat) :=
    (if wrap then n + distributed else n + plain)%nat in
  let message :=
    "use_all_avail_gpus not implemented for distributional RL" in
  create model np use_gpu use_all metrics w =
  ({| cuda_is_available := cuda_is_available w;
      heap :=
        heap w ++ [Module primary dev; Module primary dev]
          ++ (if cpe then
                [Module aux dev; Module aux dev; Module aux dev]
              else [])
          ++ (if wrap then
                DataParallel n
                  :: (if cpe then
                        [DataParallel (n + 2); DataParallel (n + 3)]
                      else [])
              else []);
      log :=
        log w ++ [Construct n primary]
          ++ (if place then [ToCuda n] else [])
          ++ [TargetNetwork n (n + 1)]
          ++ (if cpe then
                [Construct (n + 2) aux; Construct (n + 3) aux]
                  ++ (if place then [ToCuda (n + 2); ToCuda (n + 3)]
                      else [])
                  ++ [TargetNetwork (n + 3) (n + 4)]
              else [])
          ++ (if wrap then
                Distribute n (n + (if cpe then 5 else 2))
                  :: (if cpe then
                        [Distribute (n + 2) (n + 6);
                         Distribute (n + 3) (n + 7)]
                      else [])
              else []) |},
   if qu then
     if use_all then Raises (AssertionError message)
     else Returns (QRDQNTrainer n (n + 1)
                     (QRDQN_from_discrete_action_model_parameters model)
                     use_gpu (or_empty metrics) (when_cpe (n + 2)%nat)
                     (when_cpe (n + 3)%nat) (when_cpe (n + 4)%nat))
   else if ca then
     if use_all then Raises (AssertionError message)
     else Returns (C51Trainer n (n + 1)
                     (C51_from_discrete_action_model_parameters model)
                     use_gpu (or_empty metrics))
   else
     Returns (DQNTrainer (wrapped 0 (if cpe then 5 else 2))%nat (n + 1)
                (when_cpe (wrapped 2 6))
                (DQN_from_discrete_action_model_parameters model) use_gpu
                (when_cpe (wrapped 3 7)) (when_cpe (n + 4)%nat)
                (or_empty metrics)))%nat.
Proof.
  destruct w as [avail h l]. split_model model.
  unfold_run. cbn.
  destruct qu, ca, du, use_gpu, avail, cpe, use_all; heap_norm;
    rewrite ?Nat.add_0_r; reflexivity.
Qed.

Ltac run_dqn :=
  unfold outcome_of, calls_of, world_after;
  match goal with
  | |- context [create_dqn_trainer_from_params ?g ?m ?np ?gpu ?all ?ms ?w] =>
      let H := fresh in
      pose proof (dqn_run m np gpu all ms w) as H;
      cbv zeta in H; rewrite !H; clear H
  end;
  cbn [fst snd heap log]; rewrite ?drop_app_length.

Ltac finish_heap :=
  cbn; unfold module_at;
  repeat first [rewrite lookup_fresh | rewrite lookup_fresh_0 | progress cbn].


(** C4.  Whatever the flags, the factory builds its Q-network first and
    builds it once: its class is the first match of quantile, categorical,
    dueling, fully-connected, also when several flags are set.  The only
    other constructions are the two auxiliary networks, present exactly
    when CPE is calculated in training. *)
Theorem dqn_architecture_first_match model np use_gpu use_all metrics w :
  let run := create model np use_gpu use_all metrics in
  exists primary auxiliary,
    constructions (calls_of run w) = (length (heap w), primary) :: auxiliary
    /\ architecture_of primary
         = Some (documented_first_match (rainbow model))
    /\ length auxiliary
         = (if calc_cpe_in_training (evaluation model) then 2 else 0)%nat
    /\ Forall (fun x => architecture_of x.2 = Some FullyConnected)
         auxiliary.
Proof.
  intros run. subst run. run_dqn. unfold documented_first_match.
  destruct (use_gpu && cuda_is_available w).
  all: split_model model; cbn.
  all: destruct qu, ca, du, cpe, use_all; cbn.
  all: eexists _, _; split_and!; [reflexivity..|]; repeat constructor.
Qed.

(** C1, as the code has it.  With [use_all_avail_gpus] and a quantile or
    categorical configuration the factory raises the assertion error and
    returns no trainer, and it wraps nothing for multi-device execution;
    but the assertion is only reached after the Q-network and its target
    (and, with CPE, the two auxiliary networks and the CPE target) have
    been built. *)
Theorem dqn_multi_device_distributional_rejected
    model np use_gpu metrics w :
  quantile (rainbow model) || categorical (rainbow model) = true ->
  let run := create model np use_gpu true metrics in
  outcome_of run w =
    Raises (AssertionError
              "use_all_avail_gpus not implemented for distributional RL")
  /\ wrappings (calls_of run w) = []
  /\ length (constructions (calls_of run w)) =
       (if calc_cpe_in_training (evaluation model) then 3 else 1)%nat
  /\ length (heap (world_after run w)) =
       (length (heap w) +
          (if calc_cpe_in_training (evaluation model) then 5 else 2))%nat.
Proof.
  intros Hflag run. subst run. run_dqn.
  destruct (use_gpu && cuda_is_available w).
  all: split_model model; cbn in *.
  all: destruct qu, ca; try discriminate Hflag.
  all: destruct cpe; cbn; rewrite ?length_app; repeat split; reflexivity.
Qed.

(** C5.  With CPE calculated in training and [M] metrics to score, the
    reward network and the CPE network are both [FullyConnectedDQN]s of
    output width [(M + 1) * A] for [A] actions, with the middle layers, the
    activations without the last one and the dropout ratio of the
    configuration: the arguments of the default branch but for the
    width. *)
Theorem dqn_cpe_networks_width
    model np use_gpu use_all (scored : list string) w :
  calc_cpe_in_training (evaluation model) = true ->
  let run := create model np use_gpu use_all (Some scored) in
  let n := length (heap w) in
  let fully_connected width :=
    FullyConnectedDQN (get_num_output_features np) width
      (removelast (tail (layers (training model))))
      (removelast (activations (training model)))
      (dropout_ratio (training model)) in
  let aux := fully_connected ((len scored + 1) * len (actions model)) in
  (exists primary,
     constructions (calls_of run w)
       = [(n, primary); ((n + 2)%nat, aux); ((n + 3)%nat, aux)]
     /\ (documented_first_match (rainbow model) = FullyConnected ->
         primary = fully_connected (len (actions model))))
  /\ (exists dev,
        module_at (heap (world_after run w)) (n + 2)%nat = Some (aux, dev)
        /\ module_at (heap (world_after run w)) (n + 3)%nat
             = Some (aux, dev)).
Proof.
  intros Hcpe run n fully_connected aux.
  subst run n fully_connected aux. run_dqn.
  rewrite Hcpe, len_or_empty_Some, slice_middle, slice_but_last.
  unfold documented_first_match.
  destruct (use_gpu && cuda_is_available w).
  all: split_model model; cbn.
  all: destruct qu, ca, du, use_all; finish_heap.
  all: split; [eexists; split; [reflexivity|]; first [discriminate|done]
              | eexists; split; reflexivity].
Qed.

(** C6.  In the dueling branch the layer sizes are the input width, then
    the middle layers of the configuration, then the number of actions, and
    the activations are passed whole; the quantile and the default branch
    pass the activations without the last one. *)
Theorem dqn_dueling_layers_and_activations
    model np use_gpu use_all metrics w :
  let run := create model np use_gpu use_all metrics in
  let n := length (heap w) in
  let inputs := get_num_output_features np in
  let middle := removelast (tail (layers (training model))) in
  (quantile (rainbow model) = false ->
   categorical (rainbow model) = false ->
   dueling_architecture (rainbow model) = true ->
   head (constructions (calls_of run w))
     = Some (n, DuelingQNetwork
                  ([inputs] ++ middle ++ [len (actions model)])
                  (activations (training model))))
  /\ (quantile (rainbow model) = true ->
      head (constructions (calls_of run w))
        = Some (n, QuantileDQN inputs (len (actions model))
                     (num_atoms (rainbow model)) middle
                     (removelast (activations (training model)))
                     (dropout_ratio (training model))))
  /\ (documented_first_match (rainbow model) = FullyConnected ->
      head (constructions (calls_of run w))
        = Some (n, FullyConnectedDQN inputs (len (actions model)) middle
                     (removelast (activations (training model)))
                     (dropout_ratio (training model)))).
Proof.
  intros run n inputs middle. subst run n inputs middle. run_dqn.
  rewrite slice_middle, slice_but_last. unfold documented_first_match.
  split_model model; cbn.
  destruct qu, ca, du; cbn; split_and!; intros; first [discriminate|done].
Qed.

(** C8.  The auxiliary networks are built exactly when CPE is calculated in
    training, whichever branch built the Q-network.  The categorical
    trainer is nevertheless called without them, while the quantile and
    the default trainer are given the reward network, the CPE network and
    the CPE target (or [None] for each when CPE is off). *)
Theorem dqn_cpe_gating_and_trainer_arguments
    model np use_gpu use_all metrics w :
  let run := create model np use_gpu use_all metrics in
  let n := length (heap w) in
  let cpe := calc_cpe_in_training (evaluation model) in
  let aux :=
    FullyConnectedDQN (get_num_output_features np)
      ((len (or_empty metrics) + 1) * len (actions model))
      (slice (Some 1) (Some (-1)) (layers (training model)))
      (slice None (Some (-1)) (activations (training model)))
      (dropout_ratio (training model)) in
  let when_cpe (r : ref) := if cpe then Some r else None in
  let final := heap (world_after run w) in
  (exists primary,
     constructions (calls_of run w)
       = (n, primary)
           :: (if cpe then [((n + 2)%nat, aux); ((n + 3)%nat, aux)]
               else []))
  /\ (quantile (rainbow model) = false ->
      categorical (rainbow model) = true ->
      use_all = false ->
      outcome_of run w
        = Returns (C51Trainer n (n + 1)%nat
                     (C51_from_discrete_action_model_parameters model)
                     use_gpu (or_empty metrics)))
  /\ (quantile (rainbow model) = true ->
      use_all = false ->
      outcome_of run w
        = Returns (QRDQNTrainer n (n + 1)%nat
                     (QRDQN_from_discrete_action_model_parameters model)
                     use_gpu (or_empty metrics)
                     (when_cpe (n + 2)%nat) (when_cpe (n + 3)%nat)
                     (when_cpe (n + 4)%nat)))
  /\ (quantile (rainbow model) = false ->
      categorical (rainbow model) = false ->
      let wrapped (plain distributed : nat) :=
        (if use_all then n + distributed else n + plain)%nat in
      outcome_of run w
        = Returns (DQNTrainer
                     (wrapped 0 (if cpe then 5 else 2))%nat (n + 1)%nat
                     (when_cpe (wrapped 2 6)%nat)
                     (DQN_from_discrete_action_model_parameters model)
                     use_gpu
                     (when_cpe (wrapped 3 7)%nat) (when_cpe (n + 4)%nat)
                     (or_empty metrics))
      /\ (cpe = true ->
          exists dev,
            module_at final (wrapped 2 6)%nat = Some (aux, dev)
            /\ module_at final (wrapped 3 7)%nat = Some (aux, dev)
            /\ module_at final (n + 4)%nat = Some (aux, dev))).
Proof.
  intros run n cpe aux when_cpe final.
  subst run n cpe aux when_cpe final. run_dqn.
  destruct (use_gpu && cuda_is_available w).
  all: split_model model; cbn.
  all: destruct qu, ca, cpe, use_all; finish_heap.
  all: split_and!; [by eexists | intros; first [discriminate|reflexivity] ..
                   | intros Hq Hc; try discriminate Hq; try discriminate Hc ].
  all: split; [reflexivity|].
  all: intros; first [discriminate | eexists; split_and!; reflexivity].
Qed.

(** C10.  With [metrics_to_score] left at [None] the factory works with the
    empty list: the auxiliary networks, when built, have one output per
    action, and the trainer it returns is given [[]]. *)
Theorem dqn_default_metrics model np use_gpu use_all w :
  let run := create model np use_gpu use_all None in
  let n := length (heap w) in
  (calc_cpe_in_training (evaluation model) = true ->
   exists primary,
     let aux :=
       FullyConnectedDQN (get_num_output_features np)
         (len (actions model))
         (removelast (tail (layers (training model))))
         (removelast (activations (training model)))
         (dropout_ratio (training model)) in
     constructions (calls_of run w)
       = [(n, primary); ((n + 2)%nat, aux); ((n + 3)%nat, aux)])
  /\ (use_all && (quantile (rainbow model) || categorical (rainbow model))
        = false ->
      exists trainer,
        outcome_of run w = Returns trainer
        /\ metrics_received trainer = []).
Proof.
  intros run n. subst run n. run_dqn.
  rewrite slice_middle, slice_but_last.
  change (len (or_empty (@None (list string))) + 1) with 1.
  rewrite Z.mul_1_l.
  destruct (use_gpu && cuda_is_available w).
  all: split_model model; cbn.
  all: destruct qu, ca, cpe, use_all; cbn.
  all: split; intros; first [discriminate | by eexists].
Qed.

(** The discrete factory asks torch whether a device is present before
    every placement: without one it places nothing. *)
Lemma dqn_no_placement_without_device model np use_gpu use_all metrics w :
  cuda_is_available w = false ->
  placements (calls_of (create model np use_gpu use_all metrics) w) = [].
Proof.
  intros Hno. run_dqn. rewrite Hno, andb_false_r.
  split_model model; cbn.
  destruct qu, ca, cpe, use_all; reflexivity.
Qed.

End DiscreteFactory.

(** ** The continuous-action (parametric) factory *)

Section ParametricFactory.
Context {NormalizationParameters : Type}.
Variable get_num_output_features : gmap Z NormalizationParameters -> Z.

Implicit Types (model : ContinuousActionModelParameters)
  (snp anp : gmap Z NormalizationParameters) (w : world).

#[local] Abbreviation create_parametric :=
  (create_parametric_dqn_trainer_from_params get_num_output_features).


(** The parametric factory never asks whether a device is present: with
    [use_gpu] and no device it still attempts to place the primary network,
    and the attempt raises. *)
Lemma parametric_places_without_device model snp anp use_all w :
  cuda_is_available w = false ->
  let run := create_parametric model snp anp true use_all in
  placements (calls_of run w) = [length (heap w)]
  /\ outcome_of run w
       = Raises (RuntimeError "no CUDA device is available").
Proof.
  destruct w as [avail h l]. cbn. intros ->. unfold_run.
  heap_norm. split; reflexivity.
Qed.

End ParametricFactory.

(** ** The world-model and planner factories *)

Section WorldModelFactory.
Implicit Types (env : OpenAIGymEnvironment) (mp : MDNRNNParameters)
  (w : world).

(** The calls of one ensemble member. *)
Lemma constructions_members (net : module_args) (use_gpu : bool)
    (rs : list ref) :
  constructions
    (rs ≫= fun r => Construct r net :: (if use_gpu then [ToCuda r] else []))
  = (fun r => (r, net)) <$> rs.
Proof.
  induction rs as [|r rs IH]; [reflexivity|].
  rewrite bind_cons, fmap_cons. unfold constructions in *.
  rewrite omap_app, IH. by destruct use_gpu.
Qed.

(** The list comprehension of [get_cem_trainer], member by member: every
    iteration appends one memory network of its own to the heap. *)
Lemma world_model_trainers_run env mp use_gpu (xs : list Z) w :
  (use_gpu = true -> cuda_is_available w = true) ->
  let n := length (heap w) in
  let net :=
    MemoryNetwork (state_dim env) (action_dim env) (hidden_size mp)
      (num_hidden_layers mp) (num_gaussians mp) in
  comprehension (fun _ => create_world_model_trainer env mp use_gpu) xs w
  = ({| cuda_is_available := cuda_is_available w;
        heap :=
          heap w ++ replicate (length xs)
                      (Module net (if use_gpu then CUDA else CPU));
        log :=
          log w ++ (seq n (length xs) ≫= fun r =>
                      Construct r net
                        :: (if use_gpu then [ToCuda r] else [])) |},
     Returns ((fun r => {| mdnrnn_network := r; params := mp |})
                <$> seq n (length xs))).
Proof.
  revert w. induction xs as [|x xs IH]; intros [avail h l] Havail; cbn.
  - unfold ret. by rewrite !app_nil_r.
  - cbn in Havail. unfold bind at 1. unfold_run.
    destruct use_gpu.
    + rewrite Havail by reflexivity. heap_norm.
      rewrite IH by done. heap_norm.
      rewrite Nat.add_1_r. reflexivity.
    + heap_norm. rewrite IH by done. heap_norm.
      rewrite Nat.add_1_r. reflexivity.
Qed.

Lemma length_range (n : Z) : length (range n) = Z.to_nat n.
Proof. unfold range. by rewrite length_fmap, length_seq. Qed.

(** Where every requested placement can succeed: for [num_world_models = N]
    the planner factory returns a trainer with [N] world-model trainers whose
    networks are [N] distinct, newly constructed memory networks, and it
    constructs one planner network, whose member list is exactly the list of
    those networks. *)
Theorem cem_ensemble_members_independent env params use_gpu (N : nat) w :
  num_world_models params = Z.of_nat N ->
  (use_gpu = true -> cuda_is_available w = true) ->
  let run := get_cem_trainer env params use_gpu in
  let n := length (heap w) in
  let final := heap (world_after run w) in
  let member :=
    MemoryNetwork (state_dim env) (action_dim env)
      (hidden_size (mdnrnn params)) (num_hidden_layers (mdnrnn params))
      (num_gaussians (mdnrnn params)) in
  exists trainer planner,
    let nets := MDNRNNTrainer_mdnrnn <$> world_model_trainers trainer in
    outcome_of run w = Returns trainer
    /\ length (world_model_trainers trainer) = N
    /\ nets = seq n N
    /\ NoDup nets
    /\ (forall r, r ∈ nets ->
        exists dev, final !! r = Some (Module member dev))
    /\ constructions (calls_of run w)
         = ((fun r => (r, member)) <$> nets)
             ++ [(cem_planner_network trainer, CEMPlannerNetwork planner)]
    /\ mem_net_list planner = nets
    /\ final !! cem_planner_network trainer
         = Some (Module (CEMPlannerNetwork planner) CPU).
Proof.
  intros HN Havail run n final member.
  subst run n final member.
  unfold outcome_of, calls_of, world_after.
  destruct (get_cem_trainer env params use_gpu w) as [w' out] eqn:Hrun.
  unfold get_cem_trainer in Hrun. unfold bind at 1 in Hrun.
  rewrite world_model_trainers_run in Hrun by done.
  cbv zeta in Hrun. rewrite length_range, HN, Nat2Z.id in Hrun.
  set (nets := MDNRNNTrainer_mdnrnn <$> _) in Hrun.
  assert (Hnets : nets = seq (length (heap w)) N).
  { subst nets. rewrite <- list_fmap_compose. apply list_fmap_id. }
  assert (Hmember : forall (planner : object) (r : ref) net,
            r ∈ seq (length (heap w)) N ->
            ((heap w ++ replicate N net) ++ [planner]) !! r = Some net).
  { intros planner r net [Hlo Hhi]%elem_of_seq.
    rewrite <- app_assoc, lookup_app_r by lia.
    rewrite lookup_app_l by (rewrite length_replicate; lia).
    apply lookup_replicate_2. lia. }
  destruct (negb (EnvType_eqb (action_type env) DISCRETE_ACTION));
    unfold bind, construct, alloc, ret in Hrun; cbn in Hrun;
    rewrite length_app, length_replicate in Hrun;
    injection Hrun as <- <-.
  all: eexists _, _; split; [reflexivity|]; cbn; fold nets.
  all: rewrite <- (app_assoc (log w)), drop_app_length.
  all: split_and!;
    [ by rewrite length_fmap, length_seq
    | done
    | rewrite Hnets; apply NoDup_seq
    | rewrite Hnets; intros r Hr; eexists; by apply Hmember
    | unfold constructions; rewrite omap_app;
      fold (constructions
              (seq (length (heap w)) N ≫= fun r =>
                 Construct r
                   (MemoryNetwork (state_dim env) (action_dim env)
                      (hidden_size (mdnrnn params))
                      (num_hidden_layers (mdnrnn params))
                      (num_gaussians (mdnrnn params)))
                   :: (if use_gpu then [ToCuda r] else [])));
      by rewrite constructions_members, Hnets
    | cbn; by rewrite ?Hnets
    | rewrite Hnets; apply list_lookup_middle;
      by rewrite length_app, length_replicate ].
Qed.

(** Neither does the world-model factory ask whether a device is present
    before it places the memory network. *)
Lemma world_model_places_without_device env mp w :
  cuda_is_available w = false ->
  let run := create_world_model_trainer env mp true in
  placements (calls_of run w) = [length (heap w)]
  /\ outcome_of run w
       = Raises (RuntimeError "no CUDA device is available").
Proof.
  destruct w as [avail h l]. cbn. intros ->. unfold_run.
  heap_norm. split; reflexivity.
Qed.

End WorldModelFactory.

(** ** Graceful degradation, path by path *)

Section DeviceUnavailable.
Context {NormalizationParameters : Type}.
Variable get_num_output_features : gmap Z NormalizationParameters -> Z.

(** C3, where the code departs from it.  Only the discrete factory degrades
    to the CPU when [use_gpu] is set and no device is present.  On the same
    input the parametric factory and the world-model factory both attempt
    the placement of their first network, and the attempt raises instead of
    completing on the CPU. *)
Theorem gpu_requested_without_device
    (model : ContinuousActionModelParameters)
    (snp anp : gmap Z NormalizationParameters) (use_all : bool)
    (env : OpenAIGymEnvironment) (mp : MDNRNNParameters) (w : world) :
  cuda_is_available w = false ->
  let parametric :=
    create_parametric_dqn_trainer_from_params get_num_output_features
      model snp anp true use_all in
  let world_model := create_world_model_trainer env mp true in
  let failure := RuntimeError "no CUDA device is available" in
  (placements (calls_of parametric w) = [length (heap w)]
   /\ outcome_of parametric w = Raises failure)
  /\ (placements (calls_of world_model w) = [length (heap w)]
      /\ outcome_of world_model w = Raises failure).
Proof.
  intros Hno. split.
  - by apply parametric_places_without_device.
  - by apply world_model_places_without_device.
Qed.

End DeviceUnavailable.

(** ** The training data page *)

(** C9.  Building a [TrainingDataPage] never fails, whatever the arguments
    are (nothing relates their lengths); every argument can be read back
    under its own name, and [not_terminals] reads back as [None] when it was
    omitted. *)
Theorem training_data_page_stores_fields
    (states actions rewards next_states next_actions possible_next_actions
       reward_timelines ds : value) (not_terminals : option value) :
  exists page,
    TrainingDataPage.new states actions rewards next_states next_actions
      possible_next_actions reward_timelines ds not_terminals = Returns page
    /\ TrainingDataPage.getattr page "states" = Returns states
    /\ TrainingDataPage.getattr page "actions" = Returns actions
    /\ TrainingDataPage.getattr page "rewards" = Returns rewards
    /\ TrainingDataPage.getattr page "next_states" = Returns next_states
    /\ TrainingDataPage.getattr page "next_actions" = Returns next_actions
    /\ TrainingDataPage.getattr page "possible_next_actions"
         = Returns possible_next_actions
    /\ TrainingDataPage.getattr page "reward_timelines"
         = Returns reward_timelines
    /\ TrainingDataPage.getattr page "ds" = Returns ds
    /\ TrainingDataPage.getattr page "not_terminals"
         = Returns (match not_terminals with
                    | Some given => given
                    | None => VNone
                    end)
    /\ dom page = list_to_set TrainingDataPage.slots.
Proof.
  eexists. split; [reflexivity|].
  unfold TrainingDataPage.getattr.
  split_and!; by simplify_map_eq.
Qed.

(** Five states against four rewards: the page is built all the same. *)
Example training_data_page_unequal_lengths :
  let states := VList (VInt <$> [1; 2; 3; 4; 5]) in
  let rewards := VList (VInt <$> [1; 2; 3; 4]) in
  exists page,
    TrainingDataPage.new states VNone rewards VNone VNone VNone VNone VNone
      None = Returns page
    /\ TrainingDataPage.getattr page "states" = Returns states
    /\ TrainingDataPage.getattr page "rewards" = Returns rewards.
Proof.
  eexists. split; [reflexivity|]. split; reflexivity.
Qed.

(** ** The properties at concrete inputs *)

Module Instances.
Import Examples.

#[local] Abbreviation dqn := (create_dqn_trainer_from_params one_feature_each).
#[local] Abbreviation parametric :=
  (create_parametric_dqn_trainer_from_params one_feature_each).
#[local] Abbreviation message :=
  "use_all_avail_gpus not implemented for distributional RL".


(** C1, as stated, fails: a categorical configuration with
    [use_all_avail_gpus] raises the assertion error, but by then the
    categorical network (and its target) have been constructed. *)
Lemma multi_device_categorical_constructs_networks :
  let run :=
    dqn (discrete_model false true false false) two_features false true
      None in
  outcome_of run (fresh false) = Raises (AssertionError message)
  /\ constructions (calls_of run (fresh false))
       = [(0%nat, CategoricalDQN 2 3 51 (-100)%Q 200%Q [128; 64]
                    ["relu"; "relu"] 0%Q false)]
  /\ heap (world_after run (fresh false)) <> []
  /\ constructions (calls_of run (fresh false)) <> [].
Proof. by vm_compute. Qed.

Lemma dqn_multi_device_distributional_rejected_at_categorical :
  let model := discrete_model false true false true in
  let run := dqn model two_features true true (Some ["ctr"]) in
  quantile (rainbow model) || categorical (rainbow model) = true
  /\ outcome_of run (fresh true) = Raises (AssertionError message)
  /\ wrappings (calls_of run (fresh true)) = []
  /\ length (constructions (calls_of run (fresh true))) = 3%nat
  /\ length (heap (world_after run (fresh true))) = 5%nat.
Proof.
  split; [reflexivity|].
  exact (dqn_multi_device_distributional_rejected one_feature_each
           (discrete_model false true false true) two_features true
           (Some ["ctr"]) (fresh true) eq_refl).
Defined.



Lemma gpu_requested_without_device_on_cpu_host :
  let w := fresh false in
  let failure := RuntimeError "no CUDA device is available" in
  let run := parametric continuous_model two_features two_features true
               false in
  let member :=
    create_world_model_trainer some_env (mdnrnn (cem_params 1)) true in
  cuda_is_available w = false
  /\ (placements (calls_of run w) = [0%nat]
      /\ outcome_of run w = Raises failure)
  /\ (placements (calls_of member w) = [0%nat]
      /\ outcome_of member w = Raises failure).
Proof.
  split; [reflexivity|].
  exact (gpu_requested_without_device one_feature_each continuous_model
           two_features two_features false some_env
           (mdnrnn (cem_params 1)) (fresh false) eq_refl).
Defined.

Lemma dqn_cpe_networks_width_two_metrics :
  let model := discrete_model false false false true in
  let run := dqn model two_features false false (Some ["ctr"; "cvr"]) in
  let final := heap (world_after run (fresh false)) in
  let aux := FullyConnectedDQN 2 9 [128; 64] ["relu"; "relu"] 0%Q in
  calc_cpe_in_training (evaluation model) = true
  /\ (exists primary,
        constructions (calls_of run (fresh false))
          = [(0%nat, primary); (2%nat, aux); (3%nat, aux)]
        /\ primary
             = FullyConnectedDQN 2 3 [128; 64] ["relu"; "relu"] 0%Q)
  /\ (exists dev,
        module_at final 2 = Some (aux, dev)
        /\ module_at final 3 = Some (aux, dev)).
Proof.
  split; [reflexivity|].
  destruct (dqn_cpe_networks_width one_feature_each
              (discrete_model false false false true) two_features false
              false ["ctr"; "cvr"] (fresh false) eq_refl)
    as ((primary & Hbuilt & Hdefault) & Hheap).
  split; [|exact Hheap].
  exists primary. split; [exact Hbuilt | exact (Hdefault eq_refl)].
Defined.

Lemma dqn_dueling_layers_and_activations_at_examples :
  let first_built model :=
    head (constructions
            (calls_of (dqn model two_features false false None)
               (fresh false))) in
  first_built (discrete_model true false false false)
    = Some (0%nat, DuelingQNetwork [2; 128; 64; 3]
                     ["relu"; "relu"; "linear"])
  /\ first_built (discrete_model true false true false)
       = Some (0%nat, QuantileDQN 2 3 51 [128; 64] ["relu"; "relu"] 0%Q)
  /\ first_built (discrete_model false false false false)
       = Some (0%nat,
               FullyConnectedDQN 2 3 [128; 64] ["relu"; "relu"] 0%Q).
Proof.
  pose proof (fun model =>
                dqn_dueling_layers_and_activations one_feature_each model
                  two_features false false None (fresh false)) as H.
  split_and!.
  - exact (proj1 (H (discrete_model true false false false))
             eq_refl eq_refl eq_refl).
  - exact (proj1 (proj2 (H (discrete_model true false true false)))
             eq_refl).
  - exact (proj2 (proj2 (H (discrete_model false false false false)))
             eq_refl).
Defined.

Lemma cem_ensemble_of_three :
  let run := get_cem_trainer some_env (cem_params 3) true in
  let final := heap (world_after run (fresh true)) in
  num_world_models (cem_params 3) = Z.of_nat 3
  /\ cuda_is_available (fresh true) = true
  /\ exists trainer planner,
       outcome_of run (fresh true) = Returns trainer
       /\ MDNRNNTrainer_mdnrnn <$> world_model_trainers trainer
            = [0; 1; 2]%nat
       /\ NoDup (MDNRNNTrainer_mdnrnn <$> world_model_trainers trainer)
       /\ mem_net_list planner = [0; 1; 2]%nat
       /\ final !! cem_planner_network trainer
            = Some (Module (CEMPlannerNetwork planner) CPU).
Proof.
  split; [reflexivity|]. split; [reflexivity|].
  destruct (cem_ensemble_members_independent some_env (cem_params 3) true
              3 (fresh true) eq_refl (fun _ => eq_refl))
    as (trainer & planner & Hout & _ & Hnets & Hdistinct & _ & _
        & Hmembers & Hplanner).
  exists trainer, planner.
  split_and!; [exact Hout | exact Hnets | exact Hdistinct
              | by rewrite Hmembers | exact Hplanner].
Defined.

Lemma dqn_cpe_gating_and_trainer_arguments_at_examples :
  let outcome model use_all :=
    outcome_of (dqn model two_features false use_all None)
      (fresh false) in
  let categorical_model := discrete_model false true false true in
  let quantile_model := discrete_model false false true true in
  let default_model := discrete_model false false false true in
  outcome categorical_model false
    = Returns (C51Trainer 0 1
                 (C51_from_discrete_action_model_parameters
                    categorical_model) false [])
  /\ outcome quantile_model false
       = Returns (QRDQNTrainer 0 1
                    (QRDQN_from_discrete_action_model_parameters
                       quantile_model) false []
                    (Some 2%nat) (Some 3%nat) (Some 4%nat))
  /\ outcome default_model true
       = Returns (DQNTrainer 5 1 (Some 6%nat)
                    (DQN_from_discrete_action_model_parameters
                       default_model) false
                    (Some 7%nat) (Some 4%nat) []).
Proof.
  pose proof (fun model use_all =>
                dqn_cpe_gating_and_trainer_arguments one_feature_each
                  model two_features false use_all None (fresh false))
    as H.
  split_and!.
  - destruct (H (discrete_model false true false true) false)
      as (_ & Hc51 & _).
    exact (Hc51 eq_refl eq_refl eq_refl).
  - destruct (H (discrete_model false false true true) false)
      as (_ & _ & Hqr & _).
    exact (Hqr eq_refl eq_refl).
  - destruct (H (discrete_model false false false true) true)
      as (_ & _ & _ & Hdqn).
    exact (proj1 (Hdqn eq_refl eq_refl)).
Defined.

Lemma dqn_default_metrics_at_example :
  let model := discrete_model false false false true in
  let run := dqn model two_features false false None in
  let aux := FullyConnectedDQN 2 3 [128; 64] ["relu"; "relu"] 0%Q in
  calc_cpe_in_training (evaluation model) = true
  /\ (exists primary,
        constructions (calls_of run (fresh false))
          = [(0%nat, primary); (2%nat, aux); (3%nat, aux)])
  /\ (exists trainer,
        outcome_of run (fresh false) = Returns trainer
        /\ metrics_received trainer = []).
Proof.
  split; [reflexivity|].
  destruct (dqn_default_metrics one_feature_each
              (discrete_model false false false true) two_features false
              false (fresh false)) as (Hwidth & Hreceived).
  split; [exact (Hwidth eq_refl) | exact (Hreceived eq_refl)].
Defined.

End Instances.

(** * Further properties of the factories *)

Lemma or_empty_from_option {A} (x : option (list A)) :
  or_empty x = from_option id [] x.
Proof. by destruct x as [[|a l]|]. Qed.

(** Positions decide precedence. *)
Lemma precedes_lookup (a b : call) (cs : list call) (i j : nat) :
  cs !! i = Some a -> cs !! j = Some b -> (i < j)%nat -> precedes a b cs.
Proof.
  intros Ha Hb Hij. exists (take j cs), (drop (S j) cs). split.
  - symmetry. by apply take_drop_middle.
  - apply list_elem_of_lookup. exists i.
    rewrite lookup_take_lt by lia. exact Ha.
Qed.

Section DiscreteFactoryFurther.
Context {NormalizationParameters : Type}.
Variable get_num_output_features : gmap Z NormalizationParameters -> Z.

Implicit Types (model : DiscreteActionModelParameters)
  (np : gmap Z NormalizationParameters) (w : world)
  (metrics : option (list string)).

#[local] Abbreviation create :=
  (create_dqn_trainer_from_params get_num_output_features).

Ltac exec_dqn :=
  unfold outcome_of, calls_of, world_after, created;
  repeat match goal with
  | |- context [create_dqn_trainer_from_params ?g ?m ?np ?gpu ?all ?ms ?w] =>
      let H := fresh in
      pose proof (dqn_run g m np gpu all ms w) as H;
      cbv zeta in H; rewrite !H; clear H
  end;
  cbn [fst snd heap log cuda_is_available]; rewrite ?drop_app_length.

Ltac lookups :=
  cbn; unfold module_at, is_data_parallel;
  repeat first [rewrite lookup_fresh | rewrite lookup_fresh_0 | progress cbn].

(** X1.  The discrete factory attempts a GPU placement exactly when
    [use_gpu] is set and torch reports a device, and then on the Q-network
    and, with CPE, on the reward and the CPE network, never on a target.
    Every module the run creates ends on that one device: the GPU if it
    placed, the CPU otherwise. *)
Theorem dqn_placement_policy model np use_gpu use_all metrics w :
  let run := create model np use_gpu use_all metrics in
  let n := length (heap w) in
  let place := use_gpu && cuda_is_available w in
  placements (calls_of run w)
    = (if place then
         n :: (if calc_cpe_in_training (evaluation model)
               then [n + 2; n + 3] else [])
       else [])%nat
  /\ Forall (on_device (if place then CUDA else CPU))
       (created w (world_after run w)).
Proof.
  intros run n place. subst run n place. exec_dqn.
  destruct (use_gpu && cuda_is_available w).
  all: split_model model; cbn.
  all: destruct qu, ca, cpe, use_all; cbn.
  all: split; [reflexivity | repeat constructor].
Qed.

(** X2.  In the discrete factory a target is derived after its source was
    placed, so the Q-network and its target end on the same device, and so do
    the CPE network and its target. *)
Theorem dqn_target_shares_device model np use_gpu use_all metrics w :
  let run := create model np use_gpu use_all metrics in
  let n := length (heap w) in
  let final := heap (world_after run w) in
  exists primary dev,
    module_at final n = Some (primary, dev)
    /\ module_at final (n + 1) = Some (primary, dev)
    /\ (use_gpu && cuda_is_available w = true ->
        dev = CUDA
        /\ precedes (ToCuda n) (TargetNetwork n (n + 1)) (calls_of run w))
    /\ (calc_cpe_in_training (evaluation model) = true ->
        exists aux,
          module_at final (n + 3) = Some (aux, dev)
          /\ module_at final (n + 4) = Some (aux, dev)
          /\ (use_gpu && cuda_is_available w = true ->
              precedes (ToCuda (n + 3)%nat)
                (TargetNetwork (n + 3) (n + 4)) (calls_of run w))).
Proof.
  intros run n final. subst run n final. exec_dqn.
  destruct (use_gpu && cuda_is_available w).
  all: split_model model; cbn.
  all: destruct qu, ca, cpe, use_all; lookups.
  all: eexists _, _; split_and!; [reflexivity | reflexivity | |].
  all: try (intros; discriminate).
  all: try (intros _; split; [reflexivity|];
            apply (precedes_lookup _ _ _ 1 2); [reflexivity..|lia]).
  all: intros _; eexists; split_and!; [reflexivity | reflexivity |].
  all: try (intros; discriminate).
  all: intros _; apply (precedes_lookup _ _ _ 6 7); [reflexivity..|lia].
Qed.

(** X3.  For a configuration that is neither quantile nor categorical,
    [use_all_avail_gpus] wraps the Q-network and, with CPE, the reward and
    the CPE network, and hands the wrappers to the trainer; the two targets
    are handed over unwrapped.  Without the flag nothing is wrapped. *)
Theorem dqn_wraps_networks_not_targets model np use_gpu use_all metrics w :
  quantile (rainbow model) = false ->
  categorical (rainbow model) = false ->
  let run := create model np use_gpu use_all metrics in
  let n := length (heap w) in
  let cpe := calc_cpe_in_training (evaluation model) in
  let final := heap (world_after run w) in
  wrappings (calls_of run w)
    = (if use_all then n :: (if cpe then [n + 2; n + 3] else []) else [])%nat
  /\ exists trainer,
       outcome_of run w = Returns trainer
       /\ is_data_parallel final <$> networks_received trainer
            = use_all :: false
                :: (if cpe then [use_all; use_all; false] else []).
Proof.
  intros Hqu Hca run n cpe final. subst run n cpe final. exec_dqn.
  rewrite Hqu, Hca.
  destruct (use_gpu && cuda_is_available w).
  all: split_model model; cbn.
  all: destruct cpe, use_all; lookups.
  all: split; [reflexivity|]; eexists; split; [reflexivity|]; lookups.
  all: reflexivity.
Qed.

(** X4.  When no device is present the discrete factory keeps every network
    on the CPU, yet the trainer is still called with the caller's [use_gpu],
    also when that is [True]. *)
Theorem dqn_use_gpu_passed_without_device
    model np use_gpu use_all metrics w :
  cuda_is_available w = false ->
  use_all && (quantile (rainbow model) || categorical (rainbow model))
    = false ->
  let run := create model np use_gpu use_all metrics in
  let final := heap (world_after run w) in
  exists trainer,
    outcome_of run w = Returns trainer
    /\ use_gpu_received trainer = use_gpu
    /\ Forall (fun r => exists args, module_at final r = Some (args, CPU))
         (networks_received trainer).
Proof.
  intros Hno Hok run final. subst run final. exec_dqn.
  rewrite Hno, andb_false_r.
  split_model model; cbn in *.
  destruct qu, ca, cpe, use_all; try discriminate Hok; lookups.
  all: eexists; split_and!; [reflexivity..|].
  all: repeat constructor; lookups; by eexists.
Qed.

(** X5.  The trainer is called with the caller's list of metrics to score,
    and with the empty list when the caller passed [None]. *)
Theorem dqn_metrics_passed model np use_gpu use_all metrics w :
  use_all && (quantile (rainbow model) || categorical (rainbow model))
    = false ->
  let run := create model np use_gpu use_all metrics in
  exists trainer,
    outcome_of run w = Returns trainer
    /\ metrics_received trainer
         = match metrics with Some given => given | None => [] end.
Proof.
  intros Hok run. subst run. exec_dqn.
  assert (or_empty metrics
          = match metrics with Some given => given | None => [] end) as ->
    by (by destruct metrics as [[|m ms]|]).
  split_model model; cbn in *.
  destruct qu, ca, use_all; try discriminate Hok.
  all: by eexists.
Qed.

(** The networks handed to the trainer were all created by the run. *)
Lemma dqn_networks_bounds model np use_gpu use_all metrics w trainer :
  let run := create model np use_gpu use_all metrics in
  outcome_of run w = Returns trainer ->
  Forall (fun r => (length (heap w) <= r < length (heap (world_after run w)))%nat)
    (networks_received trainer).
Proof.
  intros run. subst run. exec_dqn.
  destruct (use_gpu && cuda_is_available w).
  all: split_model model; cbn.
  all: destruct qu, ca, cpe, use_all; cbn; intros [= <-]; cbn.
  all: rewrite length_app; cbn; repeat constructor; lia.
Qed.

Lemma dqn_returns model np use_gpu use_all metrics w :
  use_all && (quantile (rainbow model) || categorical (rainbow model))
    = false ->
  exists trainer,
    outcome_of (create model np use_gpu use_all metrics) w = Returns trainer.
Proof.
  intros Hok. exec_dqn.
  split_model model; cbn in *.
  destruct qu, ca, use_all; try discriminate Hok; by eexists.
Qed.

Lemma dqn_extends model np use_gpu use_all metrics w :
  extends w (world_after (create model np use_gpu use_all metrics) w).
Proof.
  exec_dqn. split_and!; [reflexivity | by eexists | by eexists].
Qed.

(** X6.  Two calls of the discrete factory in a row give two trainers that
    share no network, and the second call leaves the objects of the first
    as they were. *)
Theorem dqn_consecutive_calls_independent
    model1 np1 gpu1 all1 metrics1 model2 np2 gpu2 all2 metrics2 w :
  all1 && (quantile (rainbow model1) || categorical (rainbow model1))
    = false ->
  all2 && (quantile (rainbow model2) || categorical (rainbow model2))
    = false ->
  let once := create model1 np1 gpu1 all1 metrics1 in
  let twice :=
    first <- create model1 np1 gpu1 all1 metrics1 ;;
    second <- create model2 np2 gpu2 all2 metrics2 ;;
    ret (first, second) in
  exists first second,
    outcome_of once w = Returns first
    /\ outcome_of twice w = Returns (first, second)
    /\ (forall r, r ∈ networks_received first ->
                  r ∉ networks_received second)
    /\ heap (world_after once w) `prefix_of` heap (world_after twice w).
Proof.
  intros Hok1 Hok2 once twice. subst once twice.
  destruct (dqn_returns model1 np1 gpu1 all1 metrics1 w Hok1)
    as [first Hfirst].
  destruct (dqn_returns model2 np2 gpu2 all2 metrics2
              (world_after (create model1 np1 gpu1 all1 metrics1) w) Hok2)
    as [second Hsecond].
  pose proof (dqn_networks_bounds _ _ _ _ _ _ _ Hfirst) as B1.
  pose proof (dqn_networks_bounds _ _ _ _ _ _ _ Hsecond) as B2.
  pose proof (dqn_extends model2 np2 gpu2 all2 metrics2
                (world_after (create model1 np1 gpu1 all1 metrics1) w))
    as (_ & Hheap & _).
  exists first, second.
  unfold outcome_of, world_after, bind in *.
  destruct (create model1 np1 gpu1 all1 metrics1 w) as [w1 o1].
  cbn in *. subst o1.
  destruct (create model2 np2 gpu2 all2 metrics2 w1) as [w2 o2].
  cbn in *. subst o2.
  split_and!; [done | done | | done].
  intros r Hr1 Hr2. rewrite Forall_forall in B1, B2.
  apply B1 in Hr1. apply B2 in Hr2. lia.
Qed.

End DiscreteFactoryFurther.

Section ShortSlices.
Context {A : Type}.
Implicit Types l : list A.

Lemma slice_middle_short l :
  (length l <= 2)%nat -> slice (Some 1) (Some (-1)) l = [].
Proof.
  rewrite slice_middle.
  destruct l as [|a [|b [|c l]]]; cbn; [done..|lia].
Qed.

Lemma slice_but_last_short l :
  (length l <= 1)%nat -> slice None (Some (-1)) l = [].
Proof.
  rewrite slice_but_last. destruct l as [|a [|b l]]; cbn; [done..|lia].
Qed.
End ShortSlices.

Section ShortConfiguration.
Context {NormalizationParameters : Type}.
Variable get_num_output_features : gmap Z NormalizationParameters -> Z.

(** X17.  For a configuration with at most two layer entries and at most one
    activation, [layers[1:-1]] and [activations[:-1]] are empty: the factory
    calls every fully-connected constructor with no hidden sizes and no
    activations, and the dueling constructor with the two layers input width
    and number of actions. *)
Theorem dqn_short_configuration
    (model : DiscreteActionModelParameters)
    (np : gmap Z NormalizationParameters) (use_gpu use_all : bool)
    (metrics : option (list string)) (w : world) :
  (length (layers (training model)) <= 2)%nat ->
  (length (activations (training model)) <= 1)%nat ->
  let run :=
    create_dqn_trainer_from_params get_num_output_features model np use_gpu
      use_all metrics in
  let n := length (heap w) in
  let inputs := get_num_output_features np in
  let outputs := len (actions model) in
  let dropout := dropout_ratio (training model) in
  let aux :=
    FullyConnectedDQN inputs ((len (or_empty metrics) + 1) * outputs) [] []
      dropout in
  let primary :=
    if quantile (rainbow model) then
      QuantileDQN inputs outputs (num_atoms (rainbow model)) [] [] dropout
    else if categorical (rainbow model) then
      CategoricalDQN inputs outputs (num_atoms (rainbow model))
        (qmin (rainbow model)) (qmax (rainbow model)) [] [] dropout use_gpu
    else if dueling_architecture (rainbow model) then
      DuelingQNetwork [inputs; outputs] (activations (training model))
    else FullyConnectedDQN inputs outputs [] [] dropout in
  constructions (calls_of run w)
  = (n, primary)
      :: (if calc_cpe_in_training (evaluation model)
          then [((n + 2)%nat, aux); ((n + 3)%nat, aux)] else []).
Proof.
  intros Hlayers Hactivations run n inputs outputs dropout aux primary.
  subst run n inputs outputs dropout aux primary.
  unfold calls_of, world_after.
  pose proof (dqn_run get_num_output_features model np use_gpu use_all
                metrics w) as Hrun.
  cbv zeta in Hrun. rewrite Hrun. clear Hrun.
  cbn [fst log]. rewrite drop_app_length.
  rewrite slice_middle_short, slice_but_last_short by done.
  destruct (use_gpu && cuda_is_available w).
  all: split_model model; cbn.
  all: by destruct qu, ca, du, cpe, use_all.
Qed.

End ShortConfiguration.

Section ParametricFactoryFurther.
Context {NormalizationParameters : Type}.
Variable get_num_output_features : gmap Z NormalizationParameters -> Z.

Implicit Types (model : ContinuousActionModelParameters)
  (snp anp : gmap Z NormalizationParameters) (w : world).

#[local] Abbreviation create_parametric :=
  (create_parametric_dqn_trainer_from_params get_num_output_features).

(** X7.  When every requested placement can succeed, the parametric factory
    returns a trainer with three distinct networks of identical constructor
    arguments (state and action width from the two normalization
    dictionaries, the middle layers, the activations without the last), all
    three on the GPU exactly when [use_gpu] is set and all three wrapped,
    the target included, exactly when [use_all_avail_gpus] is set. *)
Theorem parametric_networks_uniform model snp anp use_gpu use_all w :
  (use_gpu = true -> cuda_is_available w = true) ->
  let run := create_parametric model snp anp use_gpu use_all in
  let n := length (heap w) in
  let final := heap (world_after run w) in
  let args :=
    FullyConnectedParametricDQN (get_num_output_features snp)
      (get_num_output_features anp)
      (removelast (tail (layers (c_training model))))
      (removelast (activations (c_training model))) in
  let dev := if use_gpu then CUDA else CPU in
  exists trainer,
    outcome_of run w = Returns trainer
    /\ pt_use_gpu trainer = use_gpu
    /\ (let handed := [pt_q_network trainer; pt_q_network_target trainer;
                       pt_reward_network trainer] in
        NoDup handed
        /\ module_at final <$> handed
             = [Some (args, dev); Some (args, dev); Some (args, dev)]
        /\ is_data_parallel final <$> handed = [use_all; use_all; use_all])
    /\ placements (calls_of run w)
         = (if use_gpu then [n; n + 2; n + 1] else [])%nat
    /\ wrappings (calls_of run w)
         = (if use_all then [n; n + 2; n + 1] else [])%nat.
Proof.
  intros Havail run n final args dev. subst run n final args dev.
  rewrite <- slice_middle, <- slice_but_last.
  destruct w as [avail h l]. cbn in Havail. unfold_run.
  destruct use_gpu; [rewrite Havail by done|].
  all: destruct use_all; heap_norm; rewrite ?Nat.add_0_r.
  all: eexists; split_and!; [reflexivity | reflexivity | | | | |];
    cbn; unfold module_at, is_data_parallel; heap_norm; try reflexivity.
  all: repeat (apply NoDup_cons;
               split; [rewrite ?elem_of_cons, ?elem_of_nil; lia|]).
  all: apply NoDup_nil_2.
Qed.

End ParametricFactoryFurther.

Section WorldModelFactoryFurther.
Implicit Types (env : OpenAIGymEnvironment) (mp : MDNRNNParameters)
  (params : CEMParameters) (w : world).

(** X8.  When the requested placement can succeed,
    [create_world_model_trainer] returns a trainer whose network is the one
    memory network the call constructed, sized by the environment and the
    MDN-RNN parameters; placing it on the GPU does not change its
    identity. *)
Theorem world_model_trainer_owns_fresh_network env mp use_gpu w :
  (use_gpu = true -> cuda_is_available w = true) ->
  let run := create_world_model_trainer env mp use_gpu in
  let n := length (heap w) in
  let net :=
    MemoryNetwork (state_dim env) (action_dim env) (hidden_size mp)
      (num_hidden_layers mp) (num_gaussians mp) in
  outcome_of run w = Returns {| mdnrnn_network := n; params := mp |}
  /\ constructions (calls_of run w) = [(n, net)]
  /\ placements (calls_of run w) = (if use_gpu then [n] else [])
  /\ heap (world_after run w)
       = heap w ++ [Module net (if use_gpu then CUDA else CPU)].
Proof.
  intros Havail run n net. subst run n net.
  destruct w as [avail h l]. cbn in Havail. unfold_run.
  destruct use_gpu; [rewrite Havail by done|]; heap_norm; done.
Qed.

(** X9.  With [num_world_models] zero or negative the planner factory builds
    no world model and places nothing, so it succeeds even with [use_gpu]
    and no device: it constructs the planner alone, with an empty member
    list. *)
Theorem cem_without_members env params use_gpu w :
  num_world_models params <= 0 ->
  let run := get_cem_trainer env params use_gpu in
  let n := length (heap w) in
  exists planner,
    outcome_of run w
      = Returns {| cem_planner_network := n;
                   world_model_trainers := [];
                   cem_parameters := params;
                   cem_use_gpu := use_gpu |}
    /\ calls_of run w = [Construct n (CEMPlannerNetwork planner)]
    /\ mem_net_list planner = []
    /\ heap (world_after run w)
         = heap w ++ [Module (CEMPlannerNetwork planner) CPU].
Proof.
  intros Hn run n. subst run n.
  unfold outcome_of, calls_of, world_after, get_cem_trainer.
  assert (range (num_world_models params) = []) as ->.
  { unfold range. by replace (Z.to_nat (num_world_models params))
                       with 0%nat by lia. }
  destruct w as [avail h l].
  destruct (negb (EnvType_eqb (action_type env) DISCRETE_ACTION));
    unfold_run; heap_norm; by eexists.
Qed.

(** X10.  With [use_gpu], no device and at least one world model requested,
    the planner factory fails at the placement of the first member: one
    memory network has been constructed (and stays on the CPU), no planner
    has. *)
Theorem cem_fails_at_first_member_without_device env params w :
  0 < num_world_models params ->
  cuda_is_available w = false ->
  let run := get_cem_trainer env params true in
  let n := length (heap w) in
  let net :=
    MemoryNetwork (state_dim env) (action_dim env)
      (hidden_size (mdnrnn params)) (num_hidden_layers (mdnrnn params))
      (num_gaussians (mdnrnn params)) in
  outcome_of run w = Raises (RuntimeError "no CUDA device is available")
  /\ calls_of run w = [Construct n net; ToCuda n]
  /\ heap (world_after run w) = heap w ++ [Module net CPU].
Proof.
  intros Hn Hno run n net. subst run n net.
  unfold outcome_of, calls_of, world_after, get_cem_trainer.
  assert (exists xs, range (num_world_models params) = 0 :: xs)
    as [xs ->].
  { unfold range.
    destruct (Z.to_nat (num_world_models params)) eqn:E; [lia|].
    by eexists. }
  destruct w as [avail h l]. cbn in Hno. subst avail.
  cbn [comprehension]. unfold_run. heap_norm. done.
Qed.

End WorldModelFactoryFurther.

Section PlannerFactoryFurther.
Implicit Types (env : OpenAIGymEnvironment) (mp : MDNRNNParameters)
  (params : CEMParameters) (w : world).

Lemma placements_members (net : module_args) (use_gpu : bool)
    (rs : list ref) :
  placements
    (rs ≫= fun r => Construct r net :: (if use_gpu then [ToCuda r] else []))
  = if use_gpu then rs else [].
Proof.
  induction rs as [|r rs IH]; [by destruct use_gpu|].
  rewrite bind_cons. unfold placements in *.
  rewrite omap_app, IH. by destruct use_gpu.
Qed.

(** The run of the planner factory when every requested placement can
    succeed. *)
Lemma cem_run env params use_gpu w :
  (use_gpu = true -> cuda_is_available w = true) ->
  let n := length (heap w) in
  let members := seq n (Z.to_nat (num_world_models params)) in
  let net :=
    MemoryNetwork (state_dim env) (action_dim env)
      (hidden_size (mdnrnn params)) (num_hidden_layers (mdnrnn params))
      (num_gaussians (mdnrnn params)) in
  let discrete := EnvType_eqb (action_type env) DISCRETE_ACTION in
  let planner :=
    {| mem_net_list := members;
       cem_num_iterations := p_cem_num_iterations params;
       cem_population_size := p_cem_population_size params;
       ensemble_population_size := p_ensemble_population_size params;
       num_elites := p_num_elites params;
       plan_horizon_length := p_plan_horizon_length params;
       planner_state_dim := state_dim env;
       planner_action_dim := action_dim env;
       discrete_action := discrete;
       terminal_effective :=
         float_gt_zero (not_terminal_loss_weight (mdnrnn params));
       planner_gamma := gamma (cem_rl params);
       planner_alpha := alpha params;
       planner_epsilon := epsilon params;
       action_upper_bounds :=
         if discrete then None else Some (high (action_space env));
       action_lower_bounds :=
         if discrete then None else Some (low (action_space env)) |} in
  let p := (n + length members)%nat in
  get_cem_trainer env params use_gpu w
  = ({| cuda_is_available := cuda_is_available w;
        heap :=
          heap w
            ++ replicate (length members)
                 (Module net (if use_gpu then CUDA else CPU))
            ++ [Module (CEMPlannerNetwork planner) CPU];
        log :=
          log w
            ++ (members ≫= fun r =>
                  Construct r net :: (if use_gpu then [ToCuda r] else []))
            ++ [Construct p (CEMPlannerNetwork planner)] |},
     Returns
       {| cem_planner_network := p;
          world_model_trainers :=
            (fun r => {| mdnrnn_network := r; params := mdnrnn params |})
              <$> members;
          cem_parameters := params;
          cem_use_gpu := use_gpu |}).
Proof.
  intros Havail. cbv zeta.
  unfold get_cem_trainer. unfold bind at 1.
  rewrite world_model_trainers_run by done. cbv zeta.
  rewrite length_range, length_seq.
  rewrite <- list_fmap_compose.
  rewrite (list_fmap_id (seq _ _)).
  destruct (EnvType_eqb (action_type env) DISCRETE_ACTION); cbn [negb].
  all: unfold bind, construct, alloc, ret; cbn.
  all: by rewrite length_app, length_replicate, <- !app_assoc.
Qed.

(** X11.  The planner factory places the ensemble members on the GPU when
    [use_gpu] is set, and never the planner network: the run creates the
    members, all on the requested device, and last the planner, on the
    CPU. *)
Theorem cem_places_members_only env params use_gpu w :
  (use_gpu = true -> cuda_is_available w = true) ->
  let run := get_cem_trainer env params use_gpu in
  let n := length (heap w) in
  let N := Z.to_nat (num_world_models params) in
  placements (calls_of run w) = (if use_gpu then seq n N else [])
  /\ Forall (on_device (if use_gpu then CUDA else CPU))
       (take N (created w (world_after run w)))
  /\ exists planner,
       created w (world_after run w) !! N
         = Some (Module (CEMPlannerNetwork planner) CPU)
       /\ length (created w (world_after run w)) = S N.
Proof.
  intros Havail run n N. subst run n N.
  unfold calls_of, created, world_after.
  pose proof (cem_run env params use_gpu w Havail) as Hrun.
  cbv zeta in Hrun. rewrite Hrun. clear Hrun. cbn [fst heap log].
  rewrite !drop_app_length, length_seq.
  split_and!.
  - unfold placements. rewrite omap_app. cbn.
    fold (placements
            (seq (length (heap w)) (Z.to_nat (num_world_models params))
               ≫= fun r =>
                 Construct r
                   (MemoryNetwork (state_dim env) (action_dim env)
                      (hidden_size (mdnrnn params))
                      (num_hidden_layers (mdnrnn params))
                      (num_gaussians (mdnrnn params)))
                   :: (if use_gpu then [ToCuda r] else []))).
    rewrite placements_members, app_nil_r. reflexivity.
  - rewrite take_app_length' by (by rewrite length_replicate).
    apply Forall_replicate. reflexivity.
  - eexists. split.
    + apply list_lookup_middle. by rewrite length_replicate.
    + rewrite length_app, length_replicate. cbn. lia.
Qed.


End PlannerFactoryFurther.

Section Frames.
Context {NormalizationParameters : Type}.
Variable get_num_output_features : gmap Z NormalizationParameters -> Z.

Lemma extends_refl w : extends w w.
Proof. by split_and!. Qed.

Lemma extends_trans w1 w2 w3 : extends w1 w2 -> extends w2 w3 -> extends w1 w3.
Proof.
  intros (Hc1 & Hh1 & Hl1) (Hc2 & Hh2 & Hl2). split_and!.
  - congruence.
  - by etrans.
  - by etrans.
Qed.

Lemma parametric_extends model snp anp use_gpu use_all w :
  extends w
    (world_after
       (create_parametric_dqn_trainer_from_params get_num_output_features
          model snp anp use_gpu use_all) w).
Proof.
  destruct w as [avail h l]. unfold extends. unfold_run.
  destruct use_gpu, avail, use_all; heap_norm;
    (split_and!; [reflexivity | by eexists | by eexists]).
Qed.

Lemma world_model_extends env mp use_gpu w :
  extends w (world_after (create_world_model_trainer env mp use_gpu) w).
Proof.
  destruct w as [avail h l]. unfold extends. unfold_run.
  destruct use_gpu, avail; heap_norm;
    (split_and!; [reflexivity | by eexists | by eexists]).
Qed.

Lemma members_extend env mp use_gpu (xs : list Z) w :
  extends w
    (world_after
       (comprehension (fun _ => create_world_model_trainer env mp use_gpu)
          xs) w).
Proof.
  revert w. induction xs as [|x xs IH]; intros w; [apply extends_refl|].
  pose proof (world_model_extends env mp use_gpu w) as Hone.
  unfold world_after in *. cbn [comprehension]. unfold bind at 1.
  destruct (create_world_model_trainer env mp use_gpu w) as [w1 [t|e]];
    [|exact Hone].
  cbn [fst] in Hone. specialize (IH w1). unfold bind at 1.
  destruct (comprehension _ xs w1) as [w2 [ts|e]]; cbn [fst] in *;
    by eapply extends_trans.
Qed.

Lemma cem_extends env params use_gpu w :
  extends w (world_after (get_cem_trainer env params use_gpu) w).
Proof.
  pose proof (members_extend env (mdnrnn params) use_gpu
                (range (num_world_models params)) w) as Hmembers.
  unfold world_after, get_cem_trainer in *. unfold bind at 1.
  destruct (comprehension _ _ w) as [w1 [ts|e]]; cbn [fst] in *;
    [|exact Hmembers].
  eapply extends_trans; [exact Hmembers|].
  destruct w1 as [avail1 h1 l1].
  destruct (negb (EnvType_eqb (action_type env) DISCRETE_ACTION));
    unfold bind, construct, alloc, ret; cbn;
    (split_and!; [reflexivity | by eexists | by eexists]).
Qed.

(** X13.  None of the four factories touches what was there before the call:
    the objects already on the heap and the calls already made are a prefix
    of what the run leaves, and the device flag is unchanged, also when the
    run raises. *)
Theorem factories_leave_world_intact
    dmodel np use_gpu use_all metrics cmodel snp anp env mp params w :
  extends w
    (world_after
       (create_dqn_trainer_from_params get_num_output_features dmodel np
          use_gpu use_all metrics) w)
  /\ extends w
       (world_after
          (create_parametric_dqn_trainer_from_params
             get_num_output_features cmodel snp anp use_gpu use_all) w)
  /\ extends w
       (world_after (create_world_model_trainer env mp use_gpu) w)
  /\ extends w (world_after (get_cem_trainer env params use_gpu) w).
Proof.
  split_and!.
  - apply dqn_extends.
  - apply parametric_extends.
  - apply world_model_extends.
  - apply cem_extends.
Qed.
End Frames.

(** ** Further properties of the training data page *)

Section TrainingDataPageFurther.
Import TrainingDataPage.
Implicit Types (page : gmap string value) (name : string) (v : value).

(** X14.  A page is not frozen by its construction: any of its nine slots
    can be assigned again, the new value is read back, and the other slots
    keep their values. *)
Theorem training_data_page_slot_reassigned
    (states actions rewards next_states next_actions possible_next_actions
       reward_timelines ds : value) (not_terminals : option value)
    name v :
  name ∈ slots ->
  exists page page',
    new states actions rewards next_states next_actions
      possible_next_actions reward_timelines ds not_terminals = Returns page
    /\ setattr page name v = Returns page'
    /\ getattr page' name = Returns v
    /\ (forall other, other <> name ->
        getattr page' other = getattr page other).
Proof.
  intros Hname. eexists _, _. split; [reflexivity|].
  unfold setattr. rewrite bool_decide_eq_true_2 by done.
  split; [reflexivity|]. unfold getattr. split.
  - by rewrite lookup_insert_eq.
  - intros other Hother. by rewrite lookup_insert_ne.
Qed.

(** X15.  A page holds no ordinary attribute besides its nine slots: for a
    name that is not a slot and does not begin with two underscores, reading
    it raises [AttributeError], and so does assigning it. *)
Theorem training_data_page_unknown_attribute
    (states actions rewards next_states next_actions possible_next_actions
       reward_timelines ds : value) (not_terminals : option value)
    name v :
  name ∉ slots ->
  is_reserved_name name = false ->
  exists page,
    new states actions rewards next_states next_actions
      possible_next_actions reward_timelines ds not_terminals = Returns page
    /\ getattr page name = Raises (AttributeError name)
    /\ setattr page name v = Raises (AttributeError name).
Proof.
  intros Hname _. eexists. split; [reflexivity|]. split.
  - unfold getattr.
    rewrite (proj1 (not_elem_of_dom _ _)); [reflexivity|].
    rewrite !dom_insert_L, dom_empty_L.
    intros Hin. apply Hname. unfold slots.
    set_unfold. tauto.
  - unfold setattr. by rewrite bool_decide_eq_false_2.
Qed.

(** X16.  [__init__] overwrites every slot: initialising an instance that
    already holds values gives the same page as initialising a fresh one. *)
Theorem training_data_page_init_overwrites page
    (states actions rewards next_states next_actions possible_next_actions
       reward_timelines ds not_terminals : value) :
  dom page ⊆ list_to_set slots ->
  __init__ page states actions rewards next_states next_actions
    possible_next_actions reward_timelines ds not_terminals
  = __init__ ∅ states actions rewards next_states next_actions
      possible_next_actions reward_timelines ds not_terminals.
Proof.
  intros Hdom. unfold __init__, and_next, setattr. cbn.
  f_equal. apply map_eq. intros name.
  destruct (decide (name ∈ slots)) as [Hin|Hout].
  - unfold slots in Hin. set_unfold.
    destruct Hin as [->|[->|[->|[->|[->|[->|[->|[->|[->|[]]]]]]]]]];
      by simplify_map_eq.
  - assert (page !! name = None) as Hnone.
    { apply not_elem_of_dom. intros Hin. apply Hout.
      apply Hdom in Hin. by apply elem_of_list_to_set in Hin. }
    unfold slots in Hout. set_unfold.
    rewrite !lookup_insert_ne by (intros <-; apply Hout; intuition).
    by rewrite Hnone, lookup_empty.
Qed.

End TrainingDataPageFurther.

(** ** The further properties at concrete inputs *)

Module FurtherInstances.
Import Examples FurtherExamples.

#[local] Abbreviation dqn := (create_dqn_trainer_from_params one_feature_each).
#[local] Abbreviation parametric :=
  (create_parametric_dqn_trainer_from_params one_feature_each).

Lemma dqn_target_shares_device_on_gpu :
  let model := discrete_model false false false true in
  let run := dqn model two_features true false None in
  let final := heap (world_after run (fresh true)) in
  true && cuda_is_available (fresh true) = true
  /\ calc_cpe_in_training (evaluation model) = true
  /\ exists primary aux,
       module_at final 0 = Some (primary, CUDA)
       /\ module_at final 1 = Some (primary, CUDA)
       /\ precedes (ToCuda 0) (TargetNetwork 0 1) (calls_of run (fresh true))
       /\ module_at final 3 = Some (aux, CUDA)
       /\ module_at final 4 = Some (aux, CUDA)
       /\ precedes (ToCuda 3) (TargetNetwork 3 4) (calls_of run (fresh true)).
Proof.
  split; [reflexivity|]. split; [reflexivity|].
  destruct (dqn_target_shares_device one_feature_each
              (discrete_model false false false true) two_features true
              false None (fresh true))
    as (primary & dev & Hq & Ht & Hplaced & Hcpe).
  destruct (Hplaced eq_refl) as [-> Hfirst].
  destruct (Hcpe eq_refl) as (aux & Hc & Hct & Hsecond).
  exists primary, aux.
  split_and!; [exact Hq | exact Ht | exact Hfirst | exact Hc | exact Hct
              | exact (Hsecond eq_refl)].
Defined.

Lemma dqn_wraps_networks_not_targets_with_cpe :
  let model := discrete_model true false false true in
  let run := dqn model two_features false true None in
  let final := heap (world_after run (fresh false)) in
  quantile (rainbow model) = false
  /\ categorical (rainbow model) = false
  /\ wrappings (calls_of run (fresh false)) = [0; 2; 3]%nat
  /\ exists trainer,
       outcome_of run (fresh false) = Returns trainer
       /\ is_data_parallel final <$> networks_received trainer
            = [true; false; true; true; false].
Proof.
  split; [reflexivity|]. split; [reflexivity|].
  exact (dqn_wraps_networks_not_targets one_feature_each
           (discrete_model true false false true) two_features false true
           None (fresh false) eq_refl eq_refl).
Defined.

Lemma dqn_use_gpu_passed_without_device_categorical :
  let model := discrete_model false true false false in
  let run := dqn model two_features true false None in
  let final := heap (world_after run (fresh false)) in
  cuda_is_available (fresh false) = false
  /\ false && (quantile (rainbow model) || categorical (rainbow model))
       = false
  /\ exists trainer,
       outcome_of run (fresh false) = Returns trainer
       /\ use_gpu_received trainer = true
       /\ Forall (fun r => exists args, module_at final r = Some (args, CPU))
            (networks_received trainer).
Proof.
  split; [reflexivity|]. split; [reflexivity|].
  exact (dqn_use_gpu_passed_without_device one_feature_each
           (discrete_model false true false false) two_features true false
           None (fresh false) eq_refl eq_refl).
Defined.

Lemma dqn_metrics_passed_two_metrics :
  let model := discrete_model false false true false in
  let run := dqn model two_features false false (Some ["ctr"; "cvr"]) in
  false && (quantile (rainbow model) || categorical (rainbow model)) = false
  /\ exists trainer,
       outcome_of run (fresh false) = Returns trainer
       /\ metrics_received trainer = ["ctr"; "cvr"].
Proof.
  split; [reflexivity|].
  exact (dqn_metrics_passed one_feature_each
           (discrete_model false false true false) two_features false false
           (Some ["ctr"; "cvr"]) (fresh false) eq_refl).
Defined.

Lemma dqn_consecutive_calls_independent_at_examples :
  let model1 := discrete_model false false false true in
  let model2 := discrete_model true false false false in
  let twice :=
    first <- dqn model1 two_features false true None ;;
    second <- dqn model2 two_features false false None ;;
    ret (first, second) in
  true && (quantile (rainbow model1) || categorical (rainbow model1)) = false
  /\ false && (quantile (rainbow model2) || categorical (rainbow model2))
       = false
  /\ exists first second,
       outcome_of twice (fresh false) = Returns (first, second)
       /\ (forall r, r ∈ networks_received first ->
                     r ∉ networks_received second).
Proof.
  split; [reflexivity|]. split; [reflexivity|].
  destruct (dqn_consecutive_calls_independent one_feature_each
              (discrete_model false false false true) two_features false
              true None
              (discrete_model true false false false) two_features false
              false None (fresh false) eq_refl eq_refl)
    as (first & second & _ & Htwice & Hdisjoint & _).
  by exists first, second.
Defined.

Lemma parametric_networks_uniform_on_gpu :
  let run := parametric continuous_model two_features two_features true
               true in
  let final := heap (world_after run (fresh true)) in
  let args := FullyConnectedParametricDQN 2 2 [128; 64] ["relu"; "relu"] in
  (true = true -> cuda_is_available (fresh true) = true)
  /\ exists trainer,
       outcome_of run (fresh true) = Returns trainer
       /\ pt_use_gpu trainer = true
       /\ (let handed := [pt_q_network trainer; pt_q_network_target trainer;
                          pt_reward_network trainer] in
           NoDup handed
           /\ module_at final <$> handed
                = [Some (args, CUDA); Some (args, CUDA); Some (args, CUDA)]
           /\ is_data_parallel final <$> handed = [true; true; true])
       /\ placements (calls_of run (fresh true)) = [0; 2; 1]%nat
       /\ wrappings (calls_of run (fresh true)) = [0; 2; 1]%nat.
Proof.
  split; [reflexivity|].
  exact (parametric_networks_uniform one_feature_each continuous_model
           two_features two_features true true (fresh true)
           (fun _ => eq_refl)).
Defined.

Lemma world_model_trainer_owns_fresh_network_on_gpu :
  let mp := mdnrnn (cem_params 1) in
  let run := create_world_model_trainer some_env mp true in
  (true = true -> cuda_is_available (fresh true) = true)
  /\ outcome_of run (fresh true)
       = Returns {| mdnrnn_network := 0; params := mp |}
  /\ constructions (calls_of run (fresh true))
       = [(0%nat, MemoryNetwork 4 1 50 2 5)]
  /\ placements (calls_of run (fresh true)) = [0%nat]
  /\ heap (world_after run (fresh true))
       = [Module (MemoryNetwork 4 1 50 2 5) CUDA].
Proof.
  split; [reflexivity|].
  exact (world_model_trainer_owns_fresh_network some_env
           (mdnrnn (cem_params 1)) true (fresh true) (fun _ => eq_refl)).
Defined.

Lemma cem_without_members_negative_count :
  let run := get_cem_trainer some_env (cem_params (-2)) true in
  num_world_models (cem_params (-2)) <= 0
  /\ exists planner,
       outcome_of run (fresh false)
         = Returns {| cem_planner_network := 0;
                      world_model_trainers := [];
                      cem_parameters := cem_params (-2);
                      cem_use_gpu := true |}
       /\ calls_of run (fresh false)
            = [Construct 0 (CEMPlannerNetwork planner)]
       /\ mem_net_list planner = []
       /\ heap (world_after run (fresh false))
            = [Module (CEMPlannerNetwork planner) CPU].
Proof.
  assert (num_world_models (cem_params (-2)) <= 0) as Hcount by (cbn; lia).
  split; [exact Hcount|].
  exact (cem_without_members some_env (cem_params (-2)) true (fresh false)
           Hcount).
Defined.

Lemma cem_fails_at_first_member_of_two :
  let run := get_cem_trainer some_env (cem_params 2) true in
  0 < num_world_models (cem_params 2)
  /\ cuda_is_available (fresh false) = false
  /\ outcome_of run (fresh false)
       = Raises (RuntimeError "no CUDA device is available")
  /\ calls_of run (fresh false)
       = [Construct 0 (MemoryNetwork 4 1 50 2 5); ToCuda 0]
  /\ heap (world_after run (fresh false))
       = [Module (MemoryNetwork 4 1 50 2 5) CPU].
Proof.
  assert (0 < num_world_models (cem_params 2)) as Hcount by (cbn; lia).
  split; [exact Hcount|]. split; [reflexivity|].
  exact (cem_fails_at_first_member_without_device some_env (cem_params 2)
           (fresh false) Hcount eq_refl).
Defined.

Lemma cem_places_members_only_of_three :
  let run := get_cem_trainer some_env (cem_params 3) true in
  let made := created (fresh true) (world_after run (fresh true)) in
  (true = true -> cuda_is_available (fresh true) = true)
  /\ placements (calls_of run (fresh true)) = [0; 1; 2]%nat
  /\ Forall (on_device CUDA) (take 3 made)
  /\ exists planner,
       made !! 3%nat = Some (Module (CEMPlannerNetwork planner) CPU)
       /\ length made = 4%nat.
Proof.
  split; [reflexivity|].
  exact (cem_places_members_only some_env (cem_params 3) true (fresh true)
           (fun _ => eq_refl)).
Defined.


Lemma training_data_page_slot_reassigned_rewards :
  "rewards" ∈ TrainingDataPage.slots
  /\ exists page page',
       TrainingDataPage.new (VInt 1) (VInt 2) (VInt 3) VNone VNone VNone
         VNone (VStr "2019-01-01") None = Returns page
       /\ TrainingDataPage.setattr page "rewards" (VInt 30) = Returns page'
       /\ TrainingDataPage.getattr page' "rewards" = Returns (VInt 30)
       /\ TrainingDataPage.getattr page' "states" = Returns (VInt 1).
Proof.
  assert ("rewards" ∈ TrainingDataPage.slots) as Hslot
    by (do 2 apply list_elem_of_further; apply list_elem_of_here).
  split; [exact Hslot|].
  destruct (training_data_page_slot_reassigned (VInt 1) (VInt 2) (VInt 3)
              VNone VNone VNone VNone (VStr "2019-01-01") None "rewards"
              (VInt 30) Hslot)
    as (page & page' & Hnew & Hset & Hget & Hothers).
  exists page, page'. split_and!; [exact Hnew | exact Hset | exact Hget |].
  rewrite (Hothers "states"); [|discriminate].
  injection Hnew as <-. reflexivity.
Defined.

Lemma training_data_page_unknown_attribute_weights :
  ("weights" ∉ TrainingDataPage.slots)
  /\ is_reserved_name "weights" = false
  /\ exists page,
       TrainingDataPage.new (VInt 1) (VInt 2) (VInt 3) VNone VNone VNone
         VNone (VStr "2019-01-01") None = Returns page
       /\ TrainingDataPage.getattr page "weights"
            = Raises (AttributeError "weights")
       /\ TrainingDataPage.setattr page "weights" VNone
            = Raises (AttributeError "weights").
Proof.
  assert ("weights" ∉ TrainingDataPage.slots) as Hnot.
  { intros H.
    repeat (apply elem_of_cons in H as [H|H]; [discriminate H|]).
    by apply elem_of_nil in H. }
  split; [exact Hnot|]. split; [reflexivity|].
  exact (training_data_page_unknown_attribute (VInt 1) (VInt 2) (VInt 3)
           VNone VNone VNone VNone (VStr "2019-01-01") None "weights" VNone
           Hnot eq_refl).
Defined.

Lemma training_data_page_init_overwrites_used_page :
  let used : gmap string value :=
    {[ "states" := VInt 7; "ds" := VStr "2018-12-31" ]} in
  dom used ⊆ list_to_set TrainingDataPage.slots
  /\ TrainingDataPage.__init__ used (VInt 1) (VInt 2) (VInt 3) VNone VNone
       VNone VNone (VStr "2019-01-01") VNone
     = TrainingDataPage.__init__ ∅ (VInt 1) (VInt 2) (VInt 3) VNone VNone
         VNone VNone (VStr "2019-01-01") VNone.
Proof.
  assert (dom ({[ "states" := VInt 7; "ds" := VStr "2018-12-31" ]}
                 : gmap string value)
          ⊆ list_to_set TrainingDataPage.slots) as Hdom.
  { rewrite dom_insert_L, dom_singleton_L. unfold TrainingDataPage.slots.
    intros name. rewrite elem_of_union, !elem_of_singleton.
    rewrite elem_of_list_to_set, !elem_of_cons. intuition. }
  split; [exact Hdom|].
  exact (training_data_page_init_overwrites _ (VInt 1) (VInt 2) (VInt 3)
           VNone VNone VNone VNone (VStr "2019-01-01") VNone Hdom).
Defined.

Lemma dqn_short_configuration_dueling :
  let model := short_model true in
  let run := dqn model two_features false false None in
  (length (layers (training model)) <= 2)%nat
  /\ (length (activations (training model)) <= 1)%nat
  /\ constructions (calls_of run (fresh false))
     = [(0%nat, DuelingQNetwork [2; 3] ["linear"]);
        (2%nat, FullyConnectedDQN 2 3 [] [] 0%Q);
        (3%nat, FullyConnectedDQN 2 3 [] [] 0%Q)].
Proof.
  assert (length (layers (training (short_model true))) <= 2)%nat
    as Hlayers by (cbn; lia).
  assert (length (activations (training (short_model true))) <= 1)%nat
    as Hactivations by (cbn; lia).
  split; [exact Hlayers|]. split; [exact Hactivations|].
  exact (dqn_short_configuration one_feature_each (short_model true)
           two_features false false None (fresh false) Hlayers
           Hactivations).
Defined.

End FurtherInstances.

(** ** The ensemble without a device *)

(** C7, where the code departs from it.  Asked for three world models with
    [use_gpu] on a host without a device, the planner factory returns no
    trainer: it raises at the placement of the first member, having
    constructed one memory network of the three and no planner network. *)
Theorem cem_ensemble_incomplete_without_device :
  let run := get_cem_trainer Examples.some_env (Examples.cem_params 3) true in
  let w := Examples.fresh false in
  num_world_models (Examples.cem_params 3) = 3
  /\ outcome_of run w = Raises (RuntimeError "no CUDA device is available")
  /\ constructions (calls_of run w) = [(0%nat, MemoryNetwork 4 1 50 2 5)]
  /\ placements (calls_of run w) = [0%nat]
  /\ filter (fun built => is_planner built.2) (constructions (calls_of run w))
       = [].
Proof. by vm_compute. Qed.
